(** * exec-dir-mcp: a shallow embedding of [src/exec_dir_mcp/main.py]

    The server reads JSON-RPC requests line by line, dispatches them
    ([MCPServer.handle_request]), runs shell commands in an authorised
    directory ([MCPServer.execute_command], [MCPServer.is_directory_allowed])
    and writes one envelope per response ([MCPServer.send_response]).

    Effects are modelled as a writer of observable events (filesystem checks,
    process spawn, wait, kill, lines written to stdout) together with Python's
    exception propagation.  The filesystem and the operating system are an
    explicit environment record: every claim is stated for every environment. *)

From Stdlib Require Import String List ZArith Bool Lia.
Set Warnings "-register-all".
Import ListNotations.
Open Scope list_scope.
Open Scope string_scope.

(** ** JSON values, as produced by [json.loads] *)

(** Floats are left out: no claim depends on them. Objects are association
    lists in source order; [json.loads] keeps the last of duplicate keys. *)
Inductive json : Type :=
| JNull
| JBool (b : bool)
| JInt (z : Z)
| JStr (s : string)
| JArr (l : list json)
| JObj (kvs : list (string * json)).

(** Python truthiness of a JSON-decoded value ([x or y]). *)
Definition truthy (v : json) : bool :=
  match v with
  | JNull => false
  | JBool b => b
  | JInt z => negb (Z.eqb z 0)
  | JStr s => negb (String.eqb s EmptyString)
  | JArr l => negb (Nat.eqb (length l) 0)
  | JObj kvs => negb (Nat.eqb (length kvs) 0)
  end.

(** Lookup in a decoded object: the last binding of the key wins. *)
Definition assoc (k : string) (kvs : list (string * json)) : option json :=
  match find (fun kv => String.eqb (fst kv) k) (rev kvs) with
  | Some (_, v) => Some v
  | None => None
  end.

(** ** Python exceptions *)

(** [exn_is_Exception] says whether the class derives from [Exception]
    (what [except Exception] catches); [KeyboardInterrupt] or
    [asyncio.CancelledError] do not. *)
Record exn : Type := mk_exn {
  exn_type : string;
  exn_msg : string;      (* [str(e)] *)
  exn_is_Exception : bool
}.

Inductive res (A : Type) : Type :=
| Ok (a : A)
| Raise (e : exn).
Arguments Ok {A} a.
Arguments Raise {A} e.

Definition AttributeError (msg : string) : exn := mk_exn "AttributeError" msg true.
Definition TypeError (msg : string) : exn := mk_exn "TypeError" msg true.
Definition ValueError (msg : string) : exn := mk_exn "ValueError" msg true.

(** ** Observable events *)

(** Canonical paths are [PurePath.parts] of a resolved path, e.g.
    ["/"; "tmp"; "project"]. *)
Definition path := list string.

Inductive event : Type :=
| EExists (p : path)                 (* [work_path.exists()] *)
| EIsDir (p : path)                  (* [work_path.is_dir()] *)
| EAuthorize (directory : string)    (* [self.is_directory_allowed(...)] *)
| ESpawn (command : json) (cwd : path)  (* [asyncio.create_subprocess_shell] *)
| EWait (timeout : json)             (* [asyncio.wait_for(..., timeout)] *)
| EKill                              (* [process.kill()] *)
| EWrite (line : json).              (* [print(json.dumps(...))] *)

(** ** The effect monad: trace of events and Python exceptions *)

Definition M (A : Type) : Type := list event * res A.

Definition ret {A} (a : A) : M A := ([], Ok a).
Definition raise {A} (e : exn) : M A := ([], Raise e).
Definition emit (e : event) : M unit := ([e], Ok tt).
Definition lift {A} (r : res A) : M A := ([], r).

Definition bind {A B} (m : M A) (k : A -> M B) : M B :=
  match m with
  | (t1, Ok a) => let (t2, r) := k a in (app t1 t2, r)
  | (t1, Raise e) => (t1, Raise e)
  end.

Notation "x <- m ;; k" := (bind m (fun x => k))
  (at level 61, m at next level, right associativity).
Notation "m ;;; k" := (bind m (fun _ => k))
  (at level 61, right associativity).

(** [try: m except Exception as e: h e] *)
Definition try_except {A} (m : M A) (h : exn -> M A) : M A :=
  match m with
  | (t1, Raise e) =>
      if exn_is_Exception e then let (t2, r) := h e in (app t1 t2, r)
      else (t1, Raise e)
  | ok => ok
  end.

(** [type(v).__name__] *)
Definition py_type_name (v : json) : string :=
  match v with
  | JNull => "NoneType" | JBool _ => "bool" | JInt _ => "int" | JStr _ => "str"
  | JArr _ => "list" | JObj _ => "dict"
  end.

(** [d.get(k, default)] on a dict. *)
Definition get_default (kvs : list (string * json)) (k : string) (default : json) : json :=
  match assoc k kvs with Some v => v | None => default end.

(** [d.get(k, default)]: an [AttributeError] unless [d] is a dict. *)
Definition py_get (d : json) (k : string) (default : json) : M json :=
  match d with
  | JObj kvs => ret (get_default kvs k default)
  | _ => raise (AttributeError ("'" ++ py_type_name d ++ "' object has no attribute 'get'"))
  end.

(** ** Rendering values as Python's [str()] does in f-strings *)

Definition digit (n : N) : string :=
  String (Ascii.ascii_of_N (48 + n)) EmptyString.

Fixpoint digits_N (fuel : nat) (n : N) : string :=
  match fuel with
  | O => EmptyString
  | S fuel' =>
      if N.ltb n 10 then digit n
      else digits_N fuel' (N.div n 10) ++ digit (N.modulo n 10)
  end.

(** [str(z)] for an int. *)
Definition str_Z (z : Z) : string :=
  let s := digits_N (S (N.size_nat (Z.abs_N z))) (Z.abs_N z) in
  if Z.ltb z 0 then "-" ++ s else s.

Fixpoint py_repr (v : json) : string :=
  match v with
  | JNull => "None"
  | JBool true => "True"
  | JBool false => "False"
  | JInt z => str_Z z
  | JStr s => "'" ++ s ++ "'"
  | JArr l => "[" ++ String.concat ", " (map py_repr l) ++ "]"
  | JObj kvs =>
      "{" ++ String.concat ", "
               (map (fun kv => "'" ++ fst kv ++ "': " ++ py_repr (snd kv)) kvs)
      ++ "}"
  end.

(** [str(v)]: a string is printed as is, anything else as its [repr]. *)
Definition py_str (v : json) : string :=
  match v with JStr s => s | _ => py_repr v end.

(** ** The server configuration ([MCPServer.__init__]) *)

Record server : Type := mk_server {
  initialized : bool;
  default_dir : string;
  allowed_dirs : list string
}.

(** [self.allowed_dirs = allowed_dirs or []] *)
Definition MCPServer_init (default_dir : string) (allowed : option (list string)) : server :=
  mk_server false default_dir (match allowed with Some l => l | None => [] end).

(** [self.allow_all = len(self.allowed_dirs) == 0] *)
Definition allow_all (srv : server) : bool := Nat.eqb (length (allowed_dirs srv)) 0.

(** ** The operating system

    [resolve] is [Path(s).resolve()] (symlinks and dot segments removed; it
    can raise, e.g. a [ValueError] on an embedded NUL byte); [exists] and
    [is_dir] are [Path.exists] and [Path.is_dir] (they can raise, e.g. a
    [PermissionError]); [spawn_shell] starts [/bin/sh -c cmd] in a directory;
    [communicate_for p t] is [asyncio.wait_for(p.communicate(), timeout=t)],
    whose [asyncio.TimeoutError] is the outcome [TimedOut];
    [decode_replace] is [bytes.decode('utf-8', errors='replace')]. *)
Inductive wait_outcome : Type :=
| Finished (stdout stderr : list Byte.byte) (returncode : Z)
| TimedOut.

Record env : Type := mk_env {
  resolve : string -> res path;
  exists_ : path -> res bool;
  is_dir : path -> res bool;
  spawn_shell : string -> path -> res nat;
  communicate_for : nat -> json -> res wait_outcome;
  decode_replace : list Byte.byte -> string
}.

(** A wait that never returns ([asyncio.wait_for(..., timeout=None)] on a
    process that never ends) is [communicate_for] raising
    [wait_never_returns]. It does not derive from [Exception], so no
    [except] clause catches it: nothing after the wait runs and no further
    line is written, which is all a loop blocked in the wait shows. *)
Definition wait_never_returns : exn := mk_exn "<wait never returns>" EmptyString false.

(** [str(PosixPath)] of a resolved path. *)
Definition path_str (p : path) : string :=
  match p with
  | "/" :: rest => "/" ++ String.concat "/" rest
  | _ => String.concat "/" p
  end.

(** [PurePath.relative_to]: the remaining parts when [other]'s parts are a
    prefix of [p]'s parts, [None] for the [ValueError]. *)
Fixpoint relative_to (p other : path) {struct other} : option path :=
  match other, p with
  | [], _ => Some p
  | o :: os, x :: xs => if String.eqb o x then relative_to xs os else None
  | _ :: _, [] => None
  end.

(** ** The error messages of [execute_command] (f-strings of the source) *)

Definition msg_not_allowed (directory : string) : string := "目录不在允许列表中: " ++ directory.
Definition msg_not_found (target : string) : string := "目录不存在: " ++ target.
Definition msg_not_dir (target : string) : string := "路径不是目录: " ++ target.
Definition msg_timeout (timeout : json) : string := "命令执行超时（" ++ py_str timeout ++ "秒）".
Definition msg_exec_error (ex : exn) : string := "执行错误: " ++ exn_msg ex.
Arguments msg_not_allowed : simpl never.
Arguments msg_not_found : simpl never.
Arguments msg_not_dir : simpl never.
Arguments msg_timeout : simpl never.
Arguments msg_exec_error : simpl never.

(** ** [MCPServer.is_directory_allowed] *)

(** The [for allowed in self.allowed_dirs] loop. *)
Fixpoint scan_allowed (e : env) (dir_path : path) (allowed : list string)
    (directory : string) : M (bool * string) :=
  match allowed with
  | [] => ret (false, msg_not_allowed directory)
  | a :: rest =>
      allowed_path <- lift (resolve e a) ;;
      match relative_to dir_path allowed_path with
      | Some _ => ret (true, EmptyString)
      | None => scan_allowed e dir_path rest directory
      end
  end.

Definition is_directory_allowed (srv : server) (e : env) (directory : string)
    : M (bool * string) :=
  if allow_all srv then ret (true, EmptyString)
  else
    dir_path <- lift (resolve e directory) ;;
    scan_allowed e dir_path (allowed_dirs srv) directory.

(** ** [MCPServer.execute_command] *)

(** The dict it returns: the success shape or the error shape. *)
Inductive exec_result : Type :=
| ExecOk (stdout stderr : string) (returncode : Z) (working_dir : string) (command : json)
| ExecErr (error : string).

Definition success (r : exec_result) : bool :=
  match r with ExecOk _ _ _ _ _ => true | ExecErr _ => false end.

Definition exec_result_json (r : exec_result) : json :=
  match r with
  | ExecOk out err rc wd cmd =>
      JObj [("success", JBool true); ("stdout", JStr out); ("stderr", JStr err);
            ("returncode", JInt rc); ("working_dir", JStr wd); ("command", cmd)]
  | ExecErr msg => JObj [("success", JBool false); ("error", JStr msg)]
  end.

(** [Path(x)]: a [TypeError] unless [x] is a string, with the message of
    [os.fspath] (CPython 3.11), e.g. [Path(5)]. *)
Definition Path_new (x : json) : M string :=
  match x with
  | JStr s => ret s
  | _ => raise (TypeError ("expected str, bytes or os.PathLike object, not " ++ py_type_name x))
  end.

(** [asyncio.create_subprocess_shell(cmd, ..., cwd=...)]: the event loop
    refuses a [cmd] that is not a string ([base_events.subprocess_shell]),
    then the operating system spawns the shell. *)
Definition create_subprocess_shell (e : env) (cmd : json) (cwd : path) : M nat :=
  emit (ESpawn cmd cwd) ;;;
  match cmd with
  | JStr s => lift (spawn_shell e s cwd)
  | _ => raise (ValueError "cmd must be a string")
  end.

(** [working_dir or self.default_dir] *)
Definition target_dir (srv : server) (working_dir : json) : json :=
  if truthy working_dir then working_dir else JStr (default_dir srv).

Definition execute_command (srv : server) (e : env)
    (command working_dir timeout : json) : M exec_result :=
  try_except
    (target <- Path_new (target_dir srv working_dir) ;;
     work_path <- lift (resolve e target) ;;
     emit (EExists work_path) ;;;
     ex <- lift (exists_ e work_path) ;;
     if negb ex then ret (ExecErr (msg_not_found target)) else
     emit (EIsDir work_path) ;;;
     isd <- lift (is_dir e work_path) ;;
     if negb isd then ret (ExecErr (msg_not_dir target)) else
     emit (EAuthorize (path_str work_path)) ;;;
     chk <- is_directory_allowed srv e (path_str work_path) ;;
     if negb (fst chk) then ret (ExecErr (snd chk)) else
     process <- create_subprocess_shell e command work_path ;;
     emit (EWait timeout) ;;;
     w <- lift (communicate_for e process timeout) ;;
     match w with
     | Finished out err rc =>
         ret (ExecOk (decode_replace e out) (decode_replace e err) rc
                     (path_str work_path) command)
     | TimedOut =>
         emit EKill ;;;
         ret (ExecErr (msg_timeout timeout))
     end)
    (fun ex => ret (ExecErr (msg_exec_error ex))).

(** ** [json.dumps]

    Indentation and string escaping are not modelled: only the structure of
    the text embedded in a tool result. *)
Definition dq : string := String (Ascii.ascii_of_nat 34) EmptyString.

Fixpoint dumps (v : json) : string :=
  match v with
  | JNull => "null"
  | JBool true => "true"
  | JBool false => "false"
  | JInt z => str_Z z
  | JStr s => dq ++ s ++ dq
  | JArr l => "[" ++ String.concat ", " (map dumps l) ++ "]"
  | JObj kvs =>
      "{" ++ String.concat ", "
               (map (fun kv => dq ++ fst kv ++ dq ++ ": " ++ dumps (snd kv)) kvs)
      ++ "}"
  end.

(** ** [MCPServer.handle_request] *)

(** [v == s] for a decoded value and a string literal. *)
Definition is_str (v : json) (s : string) : bool :=
  match v with JStr s' => String.eqb s' s | _ => false end.

Definition text_content (text : string) : json :=
  JArr [JObj [("type", JStr "text"); ("text", JStr text)]].

Definition initialize_result : json :=
  JObj [("protocolVersion", JStr "2024-11-05");
        ("serverInfo", JObj [("name", JStr "command-executor"); ("version", JStr "1.0.0")]);
        ("capabilities", JObj [("tools", JObj [])])].

Definition tools_list_result (srv : server) : json :=
  JObj [("tools", JArr [JObj [
    ("name", JStr "execute_command");
    ("description", JStr ("在指定文件夹中执行命令。默认目录: " ++ default_dir srv));
    ("inputSchema", JObj [
      ("type", JStr "object");
      ("properties", JObj [
        ("command", JObj [("type", JStr "string");
                          ("description", JStr "要执行的命令（shell 命令）")]);
        ("working_dir", JObj [("type", JStr "string");
                              ("description", JStr ("工作目录的路径（可选，默认: " ++ default_dir srv ++ "）"))]);
        ("timeout", JObj [("type", JStr "integer");
                          ("description", JStr "超时时间（秒），默认30秒");
                          ("default", JInt 30)])]);
      ("required", JArr [JStr "command"])])]])].

(** The handler returns the (possibly updated) server, whose [initialized]
    flag [initialize] sets, and the response dict, [None] for the
    notification. *)
Definition handle_request (srv : server) (e : env) (request : json)
    : M (server * option json) :=
  method <- py_get request "method" JNull ;;
  params <- py_get request "params" (JObj []) ;;
  if is_str method "initialize" then
    ret (mk_server true (default_dir srv) (allowed_dirs srv), Some initialize_result)
  else if is_str method "notifications/initialized" then
    ret (srv, None)
  else if is_str method "tools/list" then
    ret (srv, Some (tools_list_result srv))
  else if is_str method "tools/call" then
    tool_name <- py_get params "name" JNull ;;
    arguments <- py_get params "arguments" (JObj []) ;;
    if is_str tool_name "execute_command" then
      command <- py_get arguments "command" JNull ;;
      working_dir <- py_get arguments "working_dir" JNull ;;
      timeout <- py_get arguments "timeout" (JInt 30) ;;
      result <- execute_command srv e command working_dir timeout ;;
      ret (srv, Some (JObj [("content", text_content (dumps (exec_result_json result)))]))
    else
      ret (srv, Some (JObj [
        ("content", text_content (dumps (JObj [("error", JStr ("未知工具: " ++ py_str tool_name))])));
        ("isError", JBool true)]))
  else
    ret (srv, Some (JObj [("error", JObj [("code", JInt (-32601));
                                         ("message", JStr ("未知方法: " ++ py_str method))])])).

(** ** [MCPServer.send_response] *)

(** [key in d] for the response dict. *)
Definition has_key (k : string) (d : json) : bool :=
  match d with
  | JObj kvs => match assoc k kvs with Some _ => true | None => false end
  | _ => false
  end.

(** The envelope [{"jsonrpc": "2.0", ["id": request_id,] "error"|"result": ...}]. *)
(** [if request_id is not None: result["id"] = request_id] *)
Definition id_field (request_id : json) : list (string * json) :=
  match request_id with JNull => [] | _ => [("id", request_id)] end.

Definition envelope (response request_id : json) : json :=
  JObj (app (("jsonrpc", JStr "2.0") :: id_field request_id)
            (match response with
             | JObj kvs =>
                 match assoc "error" kvs with
                 | Some err => [("error", err)]
                 | None => [("result", response)]
                 end
             | _ => [("result", response)]
             end)).

Definition send_response (response : option json) (request_id : json) : M unit :=
  match response with
  | None => ret tt
  | Some r => emit (EWrite (envelope r request_id))
  end.

(** ** [MCPServer.run]: one iteration of the read/dispatch/write loop *)

(** A line read from stdin, after [line.strip()] and [json.loads(line)]. *)
Inductive input_line : Type :=
| Blank                      (* empty after [strip()]: skipped *)
| Unparsable                 (* [json.JSONDecodeError] *)
| Parsed (request : json).

Definition error_response (code : Z) (message : string) : json :=
  JObj [("error", JObj [("code", JInt code); ("message", JStr message)])].

Definition run_line (srv : server) (e : env) (l : input_line) : M server :=
  match l with
  | Blank => ret srv
  | Unparsable => send_response (Some (error_response (-32700) "Parse error")) JNull ;;; ret srv
  | Parsed request =>
      try_except
        ((* the diagnostic [request.get('method', 'unknown')], when [request] is truthy *)
         (if truthy request then _m <- py_get request "method" (JStr "unknown") ;; ret tt
          else ret tt) ;;;
         request_id <- py_get request "id" JNull ;;
         hr <- handle_request srv e request ;;
         send_response (snd hr) request_id ;;;
         ret (fst hr))
        (fun ex => send_response (Some (error_response (-32603) ("Internal error: " ++ exn_msg ex))) JNull ;;;
                   ret srv)
  end.

(** The loop until end of input; an exception not derived from [Exception]
    ends it. *)
Fixpoint run (srv : server) (e : env) (lines : list input_line) : M server :=
  match lines with
  | [] => ret srv
  | l :: rest => srv' <- run_line srv e l ;; run srv' e rest
  end.

(** The lines written to stdout by a trace. *)
Definition written (t : list event) : list json :=
  flat_map (fun ev => match ev with EWrite j => [j] | _ => [] end) t.

(** The request [handle_request] answers with no response. *)
Definition is_initialized_notification (v : json) : bool :=
  match v with
  | JObj kvs => is_str (get_default kvs "method" JNull) "notifications/initialized"
  | _ => false
  end.

(** The requests that set [self.initialized]. *)
Definition is_initialize_request (l : input_line) : bool :=
  match l with
  | Parsed (JObj kvs) => is_str (get_default kvs "method" JNull) "initialize"
  | _ => false
  end.

(** The lines [run] answers: every line that is not blank, except the
    [notifications/initialized] notification. *)
Definition answered (l : input_line) : bool :=
  match l with
  | Blank => false
  | Unparsable => true
  | Parsed v => negb (is_initialized_notification v)
  end.

(** ** A concrete environment for evaluation

    Path resolution is lexical (no symbolic links): relative paths are taken
    from the directory [/home/user], [.] is dropped and [..] goes up.  The
    directory tree holds [/], [/home], [/home/user], [/tmp], [/tmp/project],
    [/tmp/project-other], [/work], [/work/sub] and [/etc]; [/etc/passwd] is a
    file.  The shell command [sleep 5] runs for five seconds, every other
    command ends at once with exit status 0 and prints [hi] for [echo hi]. *)
Module Demo.

Definition slash : Ascii.ascii := Ascii.ascii_of_nat 47.

Fixpoint split_slash (s : string) (cur : string) : list string :=
  match s with
  | EmptyString => [cur]
  | String c rest =>
      if Ascii.eqb c slash then cur :: split_slash rest EmptyString
      else split_slash rest (cur ++ String c EmptyString)
  end.

Fixpoint normalize (acc : list string) (segs : list string) : list string :=
  match segs with
  | [] => rev acc
  | s :: rest =>
      if String.eqb s EmptyString || String.eqb s "." then normalize acc rest
      else if String.eqb s ".." then normalize (tl acc) rest
      else normalize (s :: acc) rest
  end.

Definition cwd : list string := ["home"; "user"].

Definition lexical_resolve (s : string) : path :=
  match s with
  | String c _ =>
      if Ascii.eqb c slash then "/" :: normalize [] (split_slash s EmptyString)
      else "/" :: normalize (rev cwd) (split_slash s EmptyString)
  | EmptyString => "/" :: cwd
  end.

Definition dirs : list path :=
  [["/"]; ["/"; "home"]; ["/"; "home"; "user"]; ["/"; "tmp"]; ["/"; "tmp"; "project"];
   ["/"; "tmp"; "project-other"]; ["/"; "work"]; ["/"; "work"; "sub"]; ["/"; "etc"]].

Definition files : list path := [["/"; "etc"; "passwd"]].

Fixpoint path_eqb (p q : path) : bool :=
  match p, q with
  | [], [] => true
  | x :: xs, y :: ys => String.eqb x y && path_eqb xs ys
  | _, _ => false
  end.

Definition mem (p : path) (ps : list path) : bool := existsb (path_eqb p) ps.

Definition bytes_of (s : string) : list Byte.byte :=
  map Ascii.byte_of_ascii (list_ascii_of_string s).

Definition ascii_decode (bs : list Byte.byte) : string :=
  string_of_list_ascii (map Ascii.ascii_of_byte bs).

(** Process ids: 5 for [sleep 5], 2 for [echo hi], 1 otherwise. *)
Definition spawn (cmd : string) (cwd : path) : res nat :=
  if String.eqb cmd "sleep 5" then Ok 5
  else if String.eqb cmd "echo hi" then Ok 2 else Ok 1.

Definition communicate (pid : nat) (timeout : json) : res wait_outcome :=
  match pid, timeout with
  | 5, JInt t => if Z.ltb t 5 then Ok TimedOut else Ok (Finished [] [] 0)
  | 5, JNull => Ok (Finished [] [] 0)
  | 5, _ => Raise (TypeError "unsupported operand type(s) for +")
  | 2, _ => Ok (Finished (bytes_of ("hi" ++ String (Ascii.ascii_of_nat 10) EmptyString)) [] 0)
  | _, _ => Ok (Finished [] [] 0)
  end.

Definition env0 : env := {|
  resolve := fun s => Ok (lexical_resolve s);
  exists_ := fun p => Ok (mem p dirs || mem p files);
  is_dir := fun p => Ok (mem p dirs);
  spawn_shell := spawn;
  communicate_for := communicate;
  decode_replace := ascii_decode
|}.

Definition obj (kvs : list (string * json)) : json := JObj kvs.

Definition call_params (args : list (string * json)) : list (string * json) :=
  [("name", JStr "execute_command"); ("arguments", obj args)].

Definition call_kvs (id : Z) (args : list (string * json)) : list (string * json) :=
  [("jsonrpc", JStr "2.0"); ("id", JInt id); ("method", JStr "tools/call");
   ("params", obj (call_params args))].

(** A [tools/call] request of [execute_command] with the given arguments. *)
Definition call (id : Z) (args : list (string * json)) : json := obj (call_kvs id args).

(** An operating system where [sleep infinity] (process 9) never ends:
    waiting without a timeout never returns, and any timeout expires. *)
Definition spawn_hang (cmd : string) (cwd : path) : res nat :=
  if String.eqb cmd "sleep infinity" then Ok 9 else spawn cmd cwd.

Definition communicate_hang (pid : nat) (timeout : json) : res wait_outcome :=
  match pid, timeout with
  | 9, JNull => Raise wait_never_returns
  | 9, _ => Ok TimedOut
  | _, _ => communicate pid timeout
  end.

Definition env_hang : env := {|
  resolve := fun s => Ok (lexical_resolve s);
  exists_ := fun p => Ok (mem p dirs || mem p files);
  is_dir := fun p => Ok (mem p dirs);
  spawn_shell := spawn_hang;
  communicate_for := communicate_hang;
  decode_replace := ascii_decode
|}.

(** The server started with [--dir /work --allowed /work]. *)
Definition work_server : server := MCPServer_init "/work" (Some ["/work"]).

End Demo.

(** * Reasoning about the effect monad *)

(** [Q] holds of the value returned, if any. *)
Definition post {A} (Q : A -> Prop) (m : M A) : Prop :=
  forall a, snd m = Ok a -> Q a.

(** Every exception [m] raises is caught by [except Exception]. *)
Definition raises_Exception {A} (m : M A) : Prop :=
  forall ex, snd m = Raise ex -> exn_is_Exception ex = true.

(** Every event of the trace satisfies [P]. *)
Definition trace_all {A} (P : event -> Prop) (m : M A) : Prop :=
  Forall P (fst m).

Section MonadFacts.

Context {A B : Type}.

Lemma bind_post (Q : B -> Prop) (m : M A) (k : A -> M B) :
  (forall a, post Q (k a)) -> post Q (bind m k).
Proof.
  unfold post, bind; intros Hk b. destruct m as [t1 [a|ex]]; simpl.
  - destruct (k a) as [t2 r] eqn:E. simpl. intros ->. specialize (Hk a b).
    rewrite E in Hk. auto.
  - discriminate.
Qed.

Lemma bind_raises (m : M A) (k : A -> M B) :
  raises_Exception m -> (forall a, raises_Exception (k a)) -> raises_Exception (bind m k).
Proof.
  unfold raises_Exception, bind; intros Hm Hk ex. destruct m as [t1 [a|ex']]; simpl.
  - destruct (k a) as [t2 r] eqn:E. simpl. intros ->. specialize (Hk a ex).
    rewrite E in Hk. auto.
  - intros [= ->]. auto.
Qed.

Lemma bind_trace (P : event -> Prop) (m : M A) (k : A -> M B) :
  trace_all P m -> (forall a, trace_all P (k a)) -> trace_all P (bind m k).
Proof.
  unfold trace_all, bind; intros Hm Hk. destruct m as [t1 [a|ex]]; simpl in *; auto.
  destruct (k a) as [t2 r] eqn:E. simpl. specialize (Hk a). rewrite E in Hk.
  apply Forall_app; auto.
Qed.

End MonadFacts.

Lemma ret_post {A} (Q : A -> Prop) (a : A) : Q a -> post Q (ret a).
Proof. intros H a' [= <-]. exact H. Qed.

Lemma raise_post {A} (Q : A -> Prop) ex : post Q (raise (A := A) ex).
Proof. intros a' H. discriminate. Qed.

Lemma ret_raises {A} (a : A) : raises_Exception (ret a).
Proof. intros ex H. discriminate. Qed.

Lemma emit_raises ev : raises_Exception (emit ev).
Proof. intros ex H. discriminate. Qed.

Lemma ret_trace {A} P (a : A) : trace_all P (ret a).
Proof. constructor. Qed.

Lemma raise_trace {A} P ex : trace_all P (raise (A := A) ex).
Proof. constructor. Qed.

Lemma lift_trace {A} P (r : res A) : trace_all P (lift r).
Proof. constructor. Qed.

Lemma emit_trace P ev : P ev -> trace_all P (emit ev).
Proof. intros H. repeat constructor. exact H. Qed.

Lemma try_except_post {A} (Q : A -> Prop) (m : M A) (h : exn -> M A) :
  post Q m -> (forall ex, post Q (h ex)) -> post Q (try_except m h).
Proof.
  unfold post, try_except; intros Hm Hh a. destruct m as [t1 [a'|ex]]; simpl in *; auto.
  destruct (exn_is_Exception ex); [|discriminate].
  destruct (h ex) as [t2 r] eqn:E. simpl. specialize (Hh ex a). rewrite E in Hh. auto.
Qed.

Lemma try_except_trace {A} P (m : M A) (h : exn -> M A) :
  trace_all P m -> (forall ex, trace_all P (h ex)) -> trace_all P (try_except m h).
Proof.
  unfold trace_all, try_except; intros Hm Hh. destruct m as [t1 [a'|ex]]; simpl in *; auto.
  destruct (exn_is_Exception ex); simpl; auto.
  destruct (h ex) as [t2 r] eqn:E. simpl. specialize (Hh ex). rewrite E in Hh.
  apply Forall_app; auto.
Qed.

(** A [try/except Exception] whose handler returns normally does not raise
    when its body raises only [Exception]s. *)
Lemma try_except_returns {A} (m : M A) (h : exn -> M A) :
  raises_Exception m -> (forall ex, exists a, snd (h ex) = Ok a) ->
  exists a, snd (try_except m h) = Ok a.
Proof.
  unfold raises_Exception, try_except; intros Hm Hh. destruct m as [t1 [a'|ex]]; simpl in *.
  - eauto.
  - rewrite (Hm ex eq_refl). destruct (Hh ex) as [a Ha].
    destruct (h ex) as [t2 r] eqn:E. simpl in *. eauto.
Qed.

(** Split the conditionals and pattern matches of a program in the goal. *)
Ltac split_branch :=
  match goal with
  | |- context [if ?b then _ else _] => destruct b
  | |- context [match ?x with _ => _ end] => destruct x
  end.

Ltac post_auto :=
  repeat (cbv beta; first
    [ apply bind_post; intro
    | apply ret_post
    | apply raise_post
    | apply try_except_post; [|intro]
    | split_branch ]).

Ltac trace_auto :=
  repeat (cbv beta; first
    [ apply bind_trace; [|intro]
    | apply ret_trace
    | apply raise_trace
    | apply lift_trace
    | apply emit_trace
    | apply try_except_trace; [|intro]
    | split_branch ]).

(** * Directory authorisation *)

Lemma relative_to_Some (p other rest : path) :
  relative_to p other = Some rest <-> p = app other rest.
Proof.
  revert p. induction other as [|o os IH]; intros p; simpl.
  - split; [intros [= ->]|intros ->]; reflexivity.
  - destruct p as [|x xs].
    + split; [discriminate|intros H; discriminate].
    + destruct (String.eqb o x) eqn:E.
      * apply String.eqb_eq in E. subst x. rewrite IH.
        split; [intros ->|intros [= ->]]; reflexivity.
      * apply String.eqb_neq in E. split; [discriminate|intros [= -> _]; congruence].
Qed.

Lemma relative_to_None (p other : path) :
  relative_to p other = None <-> ~ exists rest, p = app other rest.
Proof.
  split.
  - intros H [rest Hr]. apply relative_to_Some in Hr. congruence.
  - intros H. destruct (relative_to p other) as [r|] eqn:E; [|reflexivity].
    exfalso. apply H. exists r. apply relative_to_Some. exact E.
Qed.

Lemma scan_allowed_spec (e : env) (canon : string -> path) (dir_path : path)
    (allowed : list string) (d : string) :
  (forall a, In a allowed -> resolve e a = Ok (canon a)) ->
  exists b : bool, scan_allowed e dir_path allowed d
            = (@nil event, Ok (b, if b then EmptyString else msg_not_allowed d))
       /\ (b = true <-> exists a, In a allowed /\ exists rest, dir_path = app (canon a) rest).
Proof.
  induction allowed as [|a rest IH]; intros Hres; simpl.
  - exists false. split; [reflexivity|]. split; [discriminate|].
    intros [a [[] _]].
  - rewrite (Hres a (or_introl eq_refl)). simpl.
    destruct (relative_to dir_path (canon a)) as [r|] eqn:E.
    + exists true. split; [reflexivity|]. split; [|reflexivity]. intros _.
      exists a. split; [left; reflexivity|]. exists r. apply relative_to_Some. exact E.
    + destruct IH as [b [Hb Hiff]]; [intros a' Ha'; apply Hres; right; exact Ha'|].
      exists b. split; [rewrite Hb; reflexivity|]. rewrite Hiff. split.
      * intros [a' [Ha' Hr]]. exists a'. split; [right; exact Ha'|exact Hr].
      * intros [a' [[<-|Ha'] Hr]]; [|exists a'; auto].
        apply relative_to_None in E. contradiction.
Qed.

Lemma is_directory_allowed_scan (srv : server) (e : env) (d : string) (dp : path) :
  allow_all srv = false -> resolve e d = Ok dp ->
  is_directory_allowed srv e d = scan_allowed e dp (allowed_dirs srv) d.
Proof.
  intros H1 H2. unfold is_directory_allowed. rewrite H1, H2. unfold bind, lift.
  destruct (scan_allowed e dp (allowed_dirs srv) d). reflexivity.
Qed.

(** Claim C1.  Whenever [Path.resolve] gives the canonical form [canon s]
    of the candidate and of every allowed entry, [is_directory_allowed]
    answers [True] exactly when the allow-list is empty or the candidate's
    canonical parts extend the canonical parts of some allowed entry
    (equal, or a descendant segment by segment); in particular, with
    [/tmp/project] allowed, [/tmp/project-other] is rejected. *)
Theorem is_directory_allowed_segment_containment (srv : server) (e : env)
    (canon : string -> path) (d : string)
    (Hres : forall s, In s (d :: allowed_dirs srv) -> resolve e s = Ok (canon s)) :
  (exists b msg, is_directory_allowed srv e d = (@nil event, Ok (b, msg))
     /\ (b = true <-> allowed_dirs srv = []
                      \/ exists a, In a (allowed_dirs srv) /\ exists rest, canon d = app (canon a) rest))
  /\ (allowed_dirs srv = ["/tmp/project"] -> d = "/tmp/project-other" ->
      canon "/tmp/project" = ["/"; "tmp"; "project"] ->
      canon "/tmp/project-other" = ["/"; "tmp"; "project-other"] ->
      is_directory_allowed srv e d = (@nil event, Ok (false, msg_not_allowed "/tmp/project-other"))).
Proof.
  assert (Hmain : exists b msg, is_directory_allowed srv e d = (@nil event, Ok (b, msg))
     /\ (b = true <-> allowed_dirs srv = []
                      \/ exists a, In a (allowed_dirs srv) /\ exists rest, canon d = app (canon a) rest)).
  { destruct (allow_all srv) eqn:Hall.
    - unfold is_directory_allowed. rewrite Hall.
      exists true, EmptyString. split; [reflexivity|]. split; [|reflexivity]. intros _. left.
      unfold allow_all in Hall. destruct (allowed_dirs srv); [reflexivity|discriminate].
    - rewrite (is_directory_allowed_scan srv e d (canon d) Hall (Hres d (or_introl eq_refl))).
      destruct (scan_allowed_spec e canon (canon d) (allowed_dirs srv) d) as [b [Hb Hiff]].
      { intros a Ha. apply Hres. right. exact Ha. }
      rewrite Hb. exists b, (if b then EmptyString else msg_not_allowed d).
      split; [reflexivity|]. rewrite Hiff. split.
      + intros H. right. exact H.
      + intros [H|H]; [unfold allow_all in Hall; rewrite H in Hall; discriminate|exact H]. }
  split; [exact Hmain|].
  intros Hal Hd Hc1 Hc2. subst d.
  assert (H1 := Hres "/tmp/project-other" (or_introl eq_refl)).
  assert (H2 : resolve e "/tmp/project" = Ok (canon "/tmp/project")).
  { apply Hres. right. rewrite Hal. left. reflexivity. }
  unfold is_directory_allowed, allow_all. rewrite Hal. simpl.
  rewrite H1. simpl. rewrite H2. simpl. rewrite Hc1, Hc2. reflexivity.
Qed.

(** * The working-directory checks of [execute_command] *)

Lemma is_directory_allowed_silent (srv : server) (e : env) (d : string) :
  fst (is_directory_allowed srv e d) = [].
Proof.
  assert (H : trace_all (fun _ => False) (is_directory_allowed srv e d)).
  { unfold is_directory_allowed. destruct (allow_all srv); [apply ret_trace|].
    apply bind_trace; [apply lift_trace|intros dp].
    induction (allowed_dirs srv) as [|a rest IH]; cbn [scan_allowed]; [apply ret_trace|].
    apply bind_trace; [apply lift_trace|intros ap].
    destruct (relative_to dp ap); [apply ret_trace|exact IH]. }
  unfold trace_all in H. destruct (fst (is_directory_allowed srv e d)) as [|ev t]; [reflexivity|].
  inversion H. contradiction.
Qed.

(** Split the program in the goal on its first pending conditional. *)
Ltac mred :=
  cbv beta iota zeta delta [bind ret raise emit lift try_except Path_new
    create_subprocess_shell fst snd app];
  cbn [exn_is_Exception ValueError TypeError AttributeError].

Ltac exec_cases :=
  repeat (mred;
    match goal with
    | |- context [match ?x with _ => _ end] =>
        lazymatch x with
        | context [match _ with _ => _ end] => fail
        | _ => let E := fresh "E" in destruct x eqn:E
        end
    end);
  mred;
  repeat match goal with
  | H : negb ?b = true |- _ => apply negb_true_iff in H; subst b
  | H : negb ?b = false |- _ => apply negb_false_iff in H; subst b
  end.

Lemma execute_command_not_found (srv : server) (e : env) (c wd timeout : json)
    (t : string) (p : path) :
  target_dir srv wd = JStr t -> resolve e t = Ok p -> exists_ e p = Ok false ->
  execute_command srv e c wd timeout = ([EExists p], Ok (ExecErr (msg_not_found t))).
Proof.
  intros Ht Hr He. unfold execute_command. rewrite Ht. simpl. rewrite Hr. simpl.
  rewrite He. reflexivity.
Qed.

Lemma execute_command_not_dir (srv : server) (e : env) (c wd timeout : json)
    (t : string) (p : path) :
  target_dir srv wd = JStr t -> resolve e t = Ok p -> exists_ e p = Ok true ->
  is_dir e p = Ok false ->
  execute_command srv e c wd timeout = ([EExists p; EIsDir p], Ok (ExecErr (msg_not_dir t))).
Proof.
  intros Ht Hr He Hd. unfold execute_command. rewrite Ht. simpl. rewrite Hr. simpl.
  rewrite He. simpl. rewrite Hd. reflexivity.
Qed.

Lemma execute_command_not_allowed (srv : server) (e : env) (c wd timeout : json)
    (t : string) (p : path) (m : string) :
  target_dir srv wd = JStr t -> resolve e t = Ok p -> exists_ e p = Ok true ->
  is_dir e p = Ok true -> is_directory_allowed srv e (path_str p) = ([], Ok (false, m)) ->
  execute_command srv e c wd timeout
  = ([EExists p; EIsDir p; EAuthorize (path_str p)], Ok (ExecErr m)).
Proof.
  intros Ht Hr He Hd Ha. unfold execute_command. rewrite Ht. simpl. rewrite Hr. simpl.
  rewrite He. simpl. rewrite Hd. simpl. rewrite Ha. reflexivity.
Qed.

Lemma execute_command_spawns (srv : server) (e : env) (c wd timeout : json)
    (t : string) (p : path) (m : string) :
  target_dir srv wd = JStr t -> resolve e t = Ok p -> exists_ e p = Ok true ->
  is_dir e p = Ok true -> is_directory_allowed srv e (path_str p) = ([], Ok (true, m)) ->
  exists rest r, execute_command srv e c wd timeout
                 = (EExists p :: EIsDir p :: EAuthorize (path_str p) :: ESpawn c p :: rest, r).
Proof.
  intros Ht Hr He Hd Ha. unfold execute_command. rewrite Ht. simpl. rewrite Hr. simpl.
  rewrite He. simpl. rewrite Hd. simpl. rewrite Ha. simpl.
  exec_cases; eauto.
Qed.

Lemma execute_command_spawn_inv (srv : server) (e : env) (c wd timeout c' : json) (p : path) :
  In (ESpawn c' p) (fst (execute_command srv e c wd timeout)) ->
  c' = c /\ exists t m, target_dir srv wd = JStr t /\ resolve e t = Ok p
    /\ exists_ e p = Ok true /\ is_dir e p = Ok true
    /\ is_directory_allowed srv e (path_str p) = ([], Ok (true, m)).
Proof.
  unfold execute_command. exec_cases;
    try match goal with
    | E : is_directory_allowed ?s ?e ?d = (?l, _) |- _ =>
        pose proof (is_directory_allowed_silent s e d) as Hs; rewrite E in Hs;
        simpl in Hs; subst l
    end;
    intros H; simpl in H;
    repeat match goal with
    | H : _ \/ _ |- _ => destruct H as [H|H]
    | H : False |- _ => contradiction
    | H : ESpawn _ _ = ESpawn _ _ |- _ => injection H; intros; subst; clear H
    | H : _ = _ |- _ => discriminate H
    end;
    repeat match goal with
    | H : negb ?b = false |- _ => apply negb_false_iff in H; subst b
    end;
    (split; [reflexivity|]; do 2 eexists; repeat split; eassumption).
Qed.

Lemma execute_command_exists_inv (srv : server) (e : env) (c wd timeout : json) (p : path) :
  In (EExists p) (fst (execute_command srv e c wd timeout)) ->
  exists t, target_dir srv wd = JStr t /\ resolve e t = Ok p.
Proof.
  unfold execute_command. exec_cases;
    try match goal with
    | E : is_directory_allowed ?s ?e ?d = (?l, _) |- _ =>
        pose proof (is_directory_allowed_silent s e d) as Hs; rewrite E in Hs;
        simpl in Hs; subst l
    end;
    intros H; simpl in H;
    repeat match goal with
    | H : _ \/ _ |- _ => destruct H as [H|H]
    | H : False |- _ => contradiction
    | H : EExists _ = EExists _ |- _ => injection H; intros; subst; clear H
    | H : _ = _ |- _ => discriminate H
    end;
    eexists; split; (reflexivity || eassumption).
Qed.

Lemma execute_command_success_inv (srv : server) (e : env) (c wd timeout : json) (r : exec_result) :
  snd (execute_command srv e c wd timeout) = Ok r -> success r = true ->
  exists c' p, In (ESpawn c' p) (fst (execute_command srv e c wd timeout)).
Proof.
  unfold execute_command. exec_cases; intros Hr Hs; try discriminate Hr;
    injection Hr as <-; simpl in Hs; try discriminate.
  match goal with
  | E : is_directory_allowed ?s ?e ?d = (?l, _) |- _ =>
      pose proof (is_directory_allowed_silent s e d) as Hs'; rewrite E in Hs';
      simpl in Hs'; subst l
  end.
  do 2 eexists. simpl. do 3 right. left. reflexivity.
Qed.

(** Claim C2.  The working directory of [execute_command] is settled in
    this order: [working_dir or default_dir], then [exists()] on its resolved
    form, then [is_dir()], then [is_directory_allowed]; the first failing
    step returns a [success=false] result and no later step runs (a missing
    directory gives the not-found message, with nothing after the existence
    check); the shell is spawned only when all four steps pass, and only a
    spawned command can give [success=true]. *)
Theorem execute_command_check_order (srv : server) (e : env) (c wd timeout : json) :
  (forall t p, target_dir srv wd = JStr t -> resolve e t = Ok p ->
     (exists_ e p = Ok false ->
        execute_command srv e c wd timeout = ([EExists p], Ok (ExecErr (msg_not_found t))))
     /\ (exists_ e p = Ok true -> is_dir e p = Ok false ->
        execute_command srv e c wd timeout = ([EExists p; EIsDir p], Ok (ExecErr (msg_not_dir t))))
     /\ (forall m, exists_ e p = Ok true -> is_dir e p = Ok true ->
        is_directory_allowed srv e (path_str p) = ([], Ok (false, m)) ->
        execute_command srv e c wd timeout
        = ([EExists p; EIsDir p; EAuthorize (path_str p)], Ok (ExecErr m)))
     /\ (forall m, exists_ e p = Ok true -> is_dir e p = Ok true ->
        is_directory_allowed srv e (path_str p) = ([], Ok (true, m)) ->
        exists rest r, execute_command srv e c wd timeout
          = (EExists p :: EIsDir p :: EAuthorize (path_str p) :: ESpawn c p :: rest, r)))
  /\ (forall c' p, In (ESpawn c' p) (fst (execute_command srv e c wd timeout)) ->
        c' = c /\ exists t m, target_dir srv wd = JStr t /\ resolve e t = Ok p
          /\ exists_ e p = Ok true /\ is_dir e p = Ok true
          /\ is_directory_allowed srv e (path_str p) = ([], Ok (true, m)))
  /\ (forall r, snd (execute_command srv e c wd timeout) = Ok r -> success r = true ->
        exists c' p, In (ESpawn c' p) (fst (execute_command srv e c wd timeout))).
Proof.
  split; [|split].
  - intros t p Ht Hr. split; [|split; [|split]].
    + intros He. exact (execute_command_not_found srv e c wd timeout t p Ht Hr He).
    + intros He Hd. exact (execute_command_not_dir srv e c wd timeout t p Ht Hr He Hd).
    + intros m He Hd Ha.
      exact (execute_command_not_allowed srv e c wd timeout t p m Ht Hr He Hd Ha).
    + intros m He Hd Ha.
      exact (execute_command_spawns srv e c wd timeout t p m Ht Hr He Hd Ha).
  - apply execute_command_spawn_inv.
  - apply execute_command_success_inv.
Qed.

(** Claim C10.  An empty-string [working_dir] is falsy: [execute_command]
    behaves exactly as without one, and the only path whose existence it
    checks is the resolved default directory. *)
Theorem execute_command_empty_working_dir (srv : server) (e : env) (c timeout : json) :
  execute_command srv e c (JStr EmptyString) timeout = execute_command srv e c JNull timeout
  /\ (forall p, In (EExists p) (fst (execute_command srv e c (JStr EmptyString) timeout)) ->
        resolve e (default_dir srv) = Ok p).
Proof.
  split; [reflexivity|].
  intros p H. apply execute_command_exists_inv in H. destruct H as [t [Ht Hr]].
  unfold target_dir in Ht. simpl in Ht. injection Ht as <-. exact Hr.
Qed.

(** Claim C3.  When the checks pass, the shell is spawned and the wait
    ([asyncio.wait_for]) times out, the process is killed ([process.kill()],
    SIGKILL) right after the wait with no other event in between, and the
    result is [success=false] with the message naming the timeout in
    seconds. *)
Theorem execute_command_timeout_kills (srv : server) (e : env) (c wd timeout : json)
    (t : string) (p : path) (m s : string) (pid : nat) :
  target_dir srv wd = JStr t -> resolve e t = Ok p -> exists_ e p = Ok true ->
  is_dir e p = Ok true -> is_directory_allowed srv e (path_str p) = ([], Ok (true, m)) ->
  c = JStr s -> spawn_shell e s p = Ok pid -> communicate_for e pid timeout = Ok TimedOut ->
  execute_command srv e c wd timeout
  = ([EExists p; EIsDir p; EAuthorize (path_str p); ESpawn c p; EWait timeout; EKill],
     Ok (ExecErr ("命令执行超时（" ++ py_str timeout ++ "秒）"))).
Proof.
  intros Ht Hr He Hd Ha Hc Hs Hw. subst c. unfold execute_command. rewrite Ht. mred.
  rewrite Hr. mred. rewrite He. mred. rewrite Hd. mred. rewrite Ha. mred.
  rewrite Hs. mred. rewrite Hw. mred. reflexivity.
Qed.

(** * [execute_command] as a result-producing boundary *)

(** The operating system raises only exceptions derived from [Exception]
    ([OSError], [ValueError], ...): no [KeyboardInterrupt] or cancellation,
    and no wait that never returns ([wait_never_returns]). *)
Definition env_raises_Exceptions (e : env) : Prop :=
  (forall s ex, resolve e s = Raise ex -> exn_is_Exception ex = true)
  /\ (forall p ex, exists_ e p = Raise ex -> exn_is_Exception ex = true)
  /\ (forall p ex, is_dir e p = Raise ex -> exn_is_Exception ex = true)
  /\ (forall s p ex, spawn_shell e s p = Raise ex -> exn_is_Exception ex = true)
  /\ (forall pid t ex, communicate_for e pid t = Raise ex -> exn_is_Exception ex = true).

(** The messages [execute_command] reports failures with. *)
Definition descriptive_error (msg : string) : Prop :=
  (exists t, msg = msg_not_found t) \/ (exists t, msg = msg_not_dir t)
  \/ (exists d, msg = msg_not_allowed d) \/ (exists t, msg = msg_timeout t)
  \/ (exists ex, msg = msg_exec_error ex).

Lemma is_directory_allowed_raises (srv : server) (e : env) (d : string) :
  (forall s ex, resolve e s = Raise ex -> exn_is_Exception ex = true) ->
  raises_Exception (is_directory_allowed srv e d).
Proof.
  intros H. unfold is_directory_allowed. destruct (allow_all srv); [apply ret_raises|].
  apply bind_raises; [intros ex; apply H|intros dp].
  induction (allowed_dirs srv) as [|a rest IH]; cbn [scan_allowed]; [apply ret_raises|].
  apply bind_raises; [intros ex; apply H|intros ap].
  destruct (relative_to dp ap); [apply ret_raises|exact IH].
Qed.

Lemma is_directory_allowed_msg (srv : server) (e : env) (d : string) :
  post (fun bm => fst bm = false -> snd bm = msg_not_allowed d) (is_directory_allowed srv e d).
Proof.
  unfold is_directory_allowed. destruct (allow_all srv).
  - apply ret_post. discriminate.
  - apply bind_post. intros dp.
    induction (allowed_dirs srv) as [|a rest IH]; cbn [scan_allowed].
    + apply ret_post. reflexivity.
    + apply bind_post. intros ap. destruct (relative_to dp ap); [|exact IH].
      apply ret_post. discriminate.
Qed.

Lemma execute_command_returns (srv : server) (e : env) (c wd timeout : json)
    (H : env_raises_Exceptions e) :
  exists r, snd (execute_command srv e c wd timeout) = Ok r
     /\ (success r = false -> exists msg, r = ExecErr msg /\ descriptive_error msg).
Proof.
  destruct H as [Hr [He [Hd [Hs Hw]]]].
  unfold execute_command. exec_cases;
      try match goal with
      | F : exn_is_Exception ?ex = false |- _ =>
          exfalso; revert F;
          match goal with
          | E : resolve _ _ = Raise ex |- _ => rewrite (Hr _ _ E)
          | E : exists_ _ _ = Raise ex |- _ => rewrite (He _ _ E)
          | E : is_dir _ _ = Raise ex |- _ => rewrite (Hd _ _ E)
          | E : spawn_shell _ _ _ = Raise ex |- _ => rewrite (Hs _ _ _ E)
          | E : communicate_for _ _ _ = Raise ex |- _ => rewrite (Hw _ _ _ E)
          | E : is_directory_allowed ?s ?e ?d = (_, Raise ex) |- _ =>
              pose proof (is_directory_allowed_raises s e d Hr ex) as Hi;
              rewrite E in Hi; rewrite (Hi eq_refl)
          end; discriminate
      end;
      eexists; (split; [reflexivity|]); simpl; intros Hsucc; try discriminate Hsucc;
      eexists; (split; [reflexivity|]); unfold descriptive_error.
    all: first
      [ left; eexists; reflexivity
      | right; left; eexists; reflexivity
      | do 3 right; left; eexists; reflexivity
      | do 4 right; eexists; reflexivity
      | do 2 right; left;
        match goal with
        | E : is_directory_allowed ?s ?e ?d = (_, Ok (false, ?m)) |- _ =>
            exists d; pose proof (is_directory_allowed_msg s e d) as Hm;
            unfold post in Hm; rewrite E in Hm; exact (Hm _ eq_refl eq_refl)
        end ].
Qed.

(** Claim C4.  Whatever the command, working directory and timeout, and
    whatever the operating system does (as long as it raises only
    [Exception]s), [execute_command] returns a result and does not raise;
    every [success=false] result carries one of its error messages, and a
    spawn failure is reported as [执行错误: <str(e)>]. *)
Theorem execute_command_total (srv : server) (e : env) (c wd timeout : json)
    (H : env_raises_Exceptions e) :
  (exists r, snd (execute_command srv e c wd timeout) = Ok r
     /\ (success r = false -> exists msg, r = ExecErr msg /\ descriptive_error msg))
  /\ (forall t p m s ex, target_dir srv wd = JStr t -> resolve e t = Ok p ->
        exists_ e p = Ok true -> is_dir e p = Ok true ->
        is_directory_allowed srv e (path_str p) = ([], Ok (true, m)) ->
        c = JStr s -> spawn_shell e s p = Raise ex ->
        execute_command srv e c wd timeout
        = ([EExists p; EIsDir p; EAuthorize (path_str p); ESpawn c p],
           Ok (ExecErr (msg_exec_error ex)))).
Proof.
  split; [exact (execute_command_returns srv e c wd timeout H)|].
  destruct H as [Hr [He [Hd [Hs Hw]]]].
  intros t p m s ex Ht Hrp Hep Hdp Ha Hc Hsp. subst c. unfold execute_command.
    rewrite Ht. mred. rewrite Hrp. mred. rewrite Hep. mred. rewrite Hdp. mred.
    rewrite Ha. mred. rewrite Hsp. mred. pose proof (Hs _ _ _ Hsp) as Hx.
    destruct ex as [ty msg cls]. simpl in Hx. subst cls. reflexivity.
Qed.

(** * The dispatcher and the loop *)

Lemma is_directory_allowed_trace (P : event -> Prop) (srv : server) (e : env) (d : string) :
  trace_all P (is_directory_allowed srv e d).
Proof. unfold trace_all. rewrite is_directory_allowed_silent. constructor. Qed.

Lemma execute_command_trace (P : event -> Prop) (srv : server) (e : env) (c wd timeout : json) :
  (forall p, P (EExists p)) -> (forall p, P (EIsDir p)) -> (forall d, P (EAuthorize d)) ->
  (forall p, P (ESpawn c p)) -> P (EWait timeout) -> P EKill ->
  trace_all P (execute_command srv e c wd timeout).
Proof.
  intros H1 H2 H3 H4 H5 H6. unfold execute_command, Path_new, create_subprocess_shell.
  trace_auto; auto; apply is_directory_allowed_trace.
Qed.

(** [execute_command] writes nothing to stdout. *)
Lemma execute_command_no_write (srv : server) (e : env) (c wd timeout : json) :
  trace_all (fun ev => forall j, ev <> EWrite j) (execute_command srv e c wd timeout).
Proof. apply execute_command_trace; intros; discriminate. Qed.

(** The wait receives the [timeout] argument unchanged. *)
Lemma execute_command_wait_arg (srv : server) (e : env) (c wd timeout t : json) :
  In (EWait t) (fst (execute_command srv e c wd timeout)) -> t = timeout.
Proof.
  intros H.
  assert (Hall : trace_all (fun ev => forall t', ev = EWait t' -> t' = timeout)
                           (execute_command srv e c wd timeout)).
  { apply execute_command_trace; intros; try discriminate.
    match goal with Hx : EWait _ = EWait _ |- _ => injection Hx; auto end. }
  unfold trace_all in Hall. rewrite Forall_forall in Hall. exact (Hall _ H t eq_refl).
Qed.

(** [handle_request] on a [tools/call] of [execute_command] runs
    [execute_command] on the request's arguments and emits its events. *)
Lemma handle_request_execute_command (srv : server) (e : env)
    (kvs pk ak : list (string * json)) :
  get_default kvs "method" JNull = JStr "tools/call" ->
  get_default kvs "params" (JObj []) = JObj pk ->
  get_default pk "name" JNull = JStr "execute_command" ->
  get_default pk "arguments" (JObj []) = JObj ak ->
  fst (handle_request srv e (JObj kvs))
  = fst (execute_command srv e (get_default ak "command" JNull)
           (get_default ak "working_dir" JNull) (get_default ak "timeout" (JInt 30))).
Proof.
  intros Hm Hp Hn Ha. unfold handle_request, py_get.
  rewrite Hm, Hp. cbv beta iota zeta delta [bind ret is_str]. simpl String.eqb. cbv iota.
  rewrite Hn, Ha. simpl String.eqb. cbv beta iota zeta.
  destruct (execute_command srv e (get_default ak "command" JNull)
           (get_default ak "working_dir" JNull) (get_default ak "timeout" (JInt 30)))
    as [t [r|ex]]; simpl; rewrite ?app_nil_r; reflexivity.
Qed.

(** Claim C6 (as stated: the timeout reaching the wait is a positive
    integer).  Refuted: with [{"timeout": null}] the wait receives [None]. *)
Lemma tools_call_null_timeout_reaches_wait :
  exists t, In (EWait t) (fst (handle_request Demo.work_server Demo.env0
                                 (Demo.call 1 [("command", JStr "echo hi"); ("timeout", JNull)])))
            /\ ~ (exists z, t = JInt z /\ (0 < z)%Z).
Proof.
  exists JNull. split.
  - vm_compute. tauto.
  - intros [z [H _]]. discriminate.
Qed.

(** Claim C6, amended.  The timeout that reaches the wait is
    [arguments.get("timeout", 30)] unchanged: 30 when the key is absent,
    otherwise the supplied value, unvalidated. *)
Theorem tools_call_timeout_passthrough (srv : server) (e : env)
    (kvs pk ak : list (string * json)) (t : json)
    (Hm : get_default kvs "method" JNull = JStr "tools/call")
    (Hp : get_default kvs "params" (JObj []) = JObj pk)
    (Hn : get_default pk "name" JNull = JStr "execute_command")
    (Ha : get_default pk "arguments" (JObj []) = JObj ak)
    (Hw : In (EWait t) (fst (handle_request srv e (JObj kvs)))) :
  t = get_default ak "timeout" (JInt 30).
Proof.
  rewrite (handle_request_execute_command srv e kvs pk ak Hm Hp Hn Ha) in Hw.
  exact (execute_command_wait_arg _ _ _ _ _ _ Hw).
Qed.

(** Claim C7 (as stated: a missing or empty command is rejected before the
    spawn step).  Refuted: [{"command": ""}] is spawned and succeeds, and a
    request without a command also reaches the spawn step. *)
Lemma tools_call_empty_command_spawned :
  In (ESpawn (JStr EmptyString) ["/"; "work"])
     (fst (handle_request Demo.work_server Demo.env0 (Demo.call 1 [("command", JStr EmptyString)])))
  /\ (exists r, snd (execute_command Demo.work_server Demo.env0 (JStr EmptyString) JNull (JInt 30))
                = Ok r /\ success r = true)
  /\ In (ESpawn JNull ["/"; "work"])
        (fst (handle_request Demo.work_server Demo.env0 (Demo.call 2 []))).
Proof.
  split; [|split].
  - vm_compute. tauto.
  - eexists. split; [vm_compute; reflexivity|reflexivity].
  - vm_compute. tauto.
Qed.

(** Claim C7, amended.  [handle_request] does not validate the command:
    once the directory checks pass, [arguments.get("command")] ([None] when
    absent, possibly empty) is handed to the spawn step as is, and a command
    that is not a string makes that step raise, which [execute_command]
    reports as a [success=false] result. *)
Theorem tools_call_command_unvalidated (srv : server) (e : env)
    (kvs pk ak : list (string * json)) (t : string) (p : path) (m : string)
    (Hm : get_default kvs "method" JNull = JStr "tools/call")
    (Hp : get_default kvs "params" (JObj []) = JObj pk)
    (Hn : get_default pk "name" JNull = JStr "execute_command")
    (Ha : get_default pk "arguments" (JObj []) = JObj ak)
    (Ht : target_dir srv (get_default ak "working_dir" JNull) = JStr t)
    (Hr : resolve e t = Ok p) (He : exists_ e p = Ok true) (Hd : is_dir e p = Ok true)
    (Hida : is_directory_allowed srv e (path_str p) = ([], Ok (true, m))) :
  In (ESpawn (get_default ak "command" JNull) p) (fst (handle_request srv e (JObj kvs)))
  /\ ((forall s, get_default ak "command" JNull <> JStr s) ->
      snd (execute_command srv e (get_default ak "command" JNull)
             (get_default ak "working_dir" JNull) (get_default ak "timeout" (JInt 30)))
      = Ok (ExecErr (msg_exec_error (ValueError "cmd must be a string")))).
Proof.
  split.
  - rewrite (handle_request_execute_command srv e kvs pk ak Hm Hp Hn Ha).
    destruct (execute_command_spawns srv e (get_default ak "command" JNull)
                (get_default ak "working_dir" JNull) (get_default ak "timeout" (JInt 30))
                t p m Ht Hr He Hd Hida) as [rest [r Hx]].
    rewrite Hx. simpl. auto.
  - intros Hns. unfold execute_command. rewrite Ht. mred. rewrite Hr. mred. rewrite He. mred.
    rewrite Hd. mred. rewrite Hida. mred.
    destruct (get_default ak "command" JNull) as [| | |s| |];
      try (exfalso; exact (Hns s eq_refl)); mred; reflexivity.
Qed.

(** * One response line per request *)

Lemma written_app (a b : list event) : written (app a b) = app (written a) (written b).
Proof. unfold written. apply flat_map_app. Qed.

Lemma written_silent (t : list event) :
  Forall (fun ev => forall j, ev <> EWrite j) t -> written t = [].
Proof.
  induction 1 as [|ev t Hev _ IH]; [reflexivity|].
  destruct ev; simpl; auto. exfalso. exact (Hev _ eq_refl).
Qed.

Lemma is_str_JStr (v : json) (s : string) : is_str v s = true -> v = JStr s.
Proof.
  destruct v; simpl; try discriminate. intros H. apply String.eqb_eq in H. subst. reflexivity.
Qed.

Ltac hr_close :=
  simpl; repeat split; intros;
  repeat match goal with
  | Hx : Raise _ = Raise _ |- _ => injection Hx as <-
  | Hx : Ok _ = Ok _ |- _ => injection Hx as <-
  end;
  simpl in *; try discriminate; try congruence; reflexivity.

Ltac case_truthy :=
  try match goal with |- context [truthy ?x] => destruct (truthy x) end.

(** On a dict, [handle_request] writes nothing, raises only [Exception]s
    (when the operating system does), and yields no response exactly for the
    [notifications/initialized] method. *)
Lemma handle_request_dict (srv : server) (e : env) (kvs : list (string * json))
    (H : env_raises_Exceptions e) :
  written (fst (handle_request srv e (JObj kvs))) = []
  /\ raises_Exception (handle_request srv e (JObj kvs))
  /\ post (fun sr => snd sr = None <->
                     is_str (get_default kvs "method" JNull) "notifications/initialized" = true)
          (handle_request srv e (JObj kvs))
  /\ (is_str (get_default kvs "method" JNull) "notifications/initialized" = true ->
      handle_request srv e (JObj kvs) = ([], Ok (srv, None))).
Proof.
  unfold handle_request, py_get, raises_Exception, post.
  cbv beta iota zeta delta [bind ret raise].
  remember (get_default kvs "method" JNull) as m eqn:Em. clear Em.
  destruct (is_str m "initialize") eqn:E1.
  { apply is_str_JStr in E1. subst m. hr_close. }
  destruct (is_str m "notifications/initialized") eqn:E2; [hr_close|].
  destruct (is_str m "tools/list") eqn:E3; [hr_close|].
  destruct (is_str m "tools/call") eqn:E4; [|hr_close].
  destruct (get_default kvs "params" (JObj [])) as [| | | | |pk]; try hr_close.
  destruct (get_default pk "arguments" (JObj [])) as [| | | | |ak];
    destruct (is_str (get_default pk "name" JNull) "execute_command"); try hr_close.
  destruct (execute_command_returns srv e (get_default ak "command" JNull)
              (get_default ak "working_dir" JNull) (get_default ak "timeout" (JInt 30)) H)
    as [r [Hr _]].
  pose proof (written_silent _ (execute_command_no_write srv e (get_default ak "command" JNull)
              (get_default ak "working_dir" JNull) (get_default ak "timeout" (JInt 30)))) as Hw.
  destruct (execute_command srv e (get_default ak "command" JNull)
              (get_default ak "working_dir" JNull) (get_default ak "timeout" (JInt 30)))
    as [t [r'|ex]]; simpl in Hr, Hw; [|discriminate].
  simpl. rewrite written_app, Hw. hr_close.
Qed.

Lemma communicate_raises (pid : nat) (t : json) (ex : exn) :
  Demo.communicate pid t = Raise ex -> ex = TypeError "unsupported operand type(s) for +".
Proof.
  unfold Demo.communicate.
  destruct pid as [|[|[|[|[|[|pid]]]]]]; destruct t; try destruct (Z.ltb _ _);
    intros Hx; try discriminate; injection Hx; auto.
Qed.

Lemma env0_raises_Exceptions : env_raises_Exceptions Demo.env0.
Proof.
  unfold env_raises_Exceptions, Demo.env0, Demo.spawn; simpl.
  repeat split; intros *; try discriminate.
  - repeat destruct (String.eqb _ _); discriminate.
  - intros Hx. rewrite (communicate_raises _ _ _ Hx). reflexivity.
Qed.

(** Claim C8 (as stated: every parsed request with a non-null id gets
    exactly one line).  Refuted twice: a [notifications/initialized] request
    that carries an id gets none; and [{"command": "sleep infinity",
    "timeout": null}] (id 1) blocks the loop in [wait_for(timeout=None)],
    so neither it nor the next request (id 2) is ever answered. *)
Lemma request_lines_unanswered :
  written (fst (run_line Demo.work_server Demo.env0
    (Parsed (Demo.obj [("jsonrpc", JStr "2.0"); ("id", JInt 1);
                       ("method", JStr "notifications/initialized")])))) = []
  /\ written (fst (run Demo.work_server Demo.env_hang
       [Parsed (Demo.call 1 [("command", JStr "sleep infinity"); ("timeout", JNull)]);
        Parsed (Demo.call 2 [("command", JStr "echo hi")])])) = [].
Proof. split; vm_compute; reflexivity. Qed.

(** Claim C8, amended.  As long as the operating system raises only
    [Exception]s and every wait returns, each parsed request gets exactly
    one line, whether or not it carries an id, except a
    [notifications/initialized] request, which gets none, also when it
    carries an id. *)
Theorem run_line_one_line_per_request (srv : server) (e : env) (v : json)
    (H : env_raises_Exceptions e) :
  length (written (fst (run_line srv e (Parsed v))))
  = if is_initialized_notification v then 0 else 1.
Proof.
  destruct v as [| | | | |kvs];
    try (unfold run_line, py_get; cbv beta iota zeta delta [bind ret raise try_except];
         case_truthy; reflexivity).
  destruct (handle_request_dict srv e kvs H) as [Hw [Hr [Hp Hn]]].
  unfold is_initialized_notification.
  unfold run_line, py_get. cbv beta iota zeta delta [bind ret raise try_except].
  destruct (is_str (get_default kvs "method" JNull) "notifications/initialized") eqn:En.
  { rewrite (Hn eq_refl). case_truthy; reflexivity. }
  revert Hw Hr Hp. unfold raises_Exception, post.
  destruct (handle_request srv e (JObj kvs)) as [t [[s r]|ex]]; intros Hw Hr Hp; simpl in Hw, Hr, Hp.
  - destruct r as [r|]; [|destruct (Hp _ eq_refl) as [Hx _]; specialize (Hx eq_refl); congruence].
    case_truthy; simpl; rewrite written_app, Hw; reflexivity.
  - case_truthy; cbv beta iota; rewrite (Hr ex eq_refl); simpl;
      rewrite written_app, Hw; reflexivity.
Qed.

(** Claim C9.  A [tools/call] of a tool other than [execute_command] is
    answered with a [result] envelope whose payload has [isError: true] and
    the message [未知工具: <name>], and no [error] field; a method outside
    [initialize], [notifications/initialized], [tools/list] and [tools/call]
    is answered with an [error] envelope of code -32601 and no [result]. *)
Theorem run_line_unknown_tool_and_method (srv : server) (e : env) (kvs : list (string * json)) :
  (forall pk,
     get_default kvs "method" JNull = JStr "tools/call" ->
     get_default kvs "params" (JObj []) = JObj pk ->
     is_str (get_default pk "name" JNull) "execute_command" = false ->
     written (fst (run_line srv e (Parsed (JObj kvs))))
     = [JObj (("jsonrpc", JStr "2.0") ::
              app (id_field (get_default kvs "id" JNull))
                  [("result", JObj [
                      ("content", text_content (dumps (JObj [("error",
                         JStr ("未知工具: " ++ py_str (get_default pk "name" JNull)))])));
                      ("isError", JBool true)])])])
  /\ ((forall k, In k ["initialize"; "notifications/initialized"; "tools/list"; "tools/call"] ->
         is_str (get_default kvs "method" JNull) k = false) ->
      written (fst (run_line srv e (Parsed (JObj kvs))))
      = [JObj (("jsonrpc", JStr "2.0") ::
               app (id_field (get_default kvs "id" JNull))
                   [("error", JObj [("code", JInt (-32601));
                                    ("message", JStr ("未知方法: " ++ py_str (get_default kvs "method" JNull)))])])]).
Proof.
  split.
  - intros pk Hm Hp Hn. unfold run_line, handle_request, py_get.
    cbv beta iota zeta delta [bind ret raise try_except]. rewrite Hm, Hp. simpl is_str.
    cbv iota. rewrite Hn. case_truthy; reflexivity.
  - intros Hk. unfold run_line, handle_request, py_get.
    cbv beta iota zeta delta [bind ret raise try_except].
    rewrite (Hk "initialize"), (Hk "notifications/initialized"), (Hk "tools/list"),
      (Hk "tools/call") by (simpl; tauto).
    case_truthy; reflexivity.
Qed.

(** Claim C5.  When [handle_request] raises on a [tools/call] whose
    [params] is not a dict, the loop answers with the -32603 internal error,
    and the envelope has no [id] field whatever the request's id: the
    handler passes [None] for it. *)
Theorem run_line_internal_error_drops_id (srv : server) (e : env)
    (kvs : list (string * json)) (v : json)
    (Hm : get_default kvs "method" JNull = JStr "tools/call")
    (Hp : get_default kvs "params" (JObj []) = v)
    (Hv : forall pk, v <> JObj pk) :
  written (fst (run_line srv e (Parsed (JObj kvs))))
  = [JObj [("jsonrpc", JStr "2.0");
           ("error", JObj [("code", JInt (-32603));
                           ("message", JStr ("Internal error: '" ++ py_type_name v
                                             ++ "' object has no attribute 'get'"))])]].
Proof.
  unfold run_line, handle_request, py_get.
  cbv beta iota zeta delta [bind ret raise try_except]. rewrite Hm, Hp. simpl is_str. cbv iota.
  destruct v as [| | | | |pk]; [..|exfalso; exact (Hv pk eq_refl)];
    case_truthy; reflexivity.
Qed.

(** * Witnesses: the theorems applied to the demonstration environment *)

(** [/tmp/project-other] is refused under [--allowed /tmp/project]. *)
Lemma is_directory_allowed_segment_containment_witness :
  is_directory_allowed (MCPServer_init "/tmp/project" (Some ["/tmp/project"])) Demo.env0
    "/tmp/project-other"
  = (@nil event, Ok (false, msg_not_allowed "/tmp/project-other")).
Proof.
  apply (proj2 (is_directory_allowed_segment_containment
                  (MCPServer_init "/tmp/project" (Some ["/tmp/project"])) Demo.env0
                  Demo.lexical_resolve "/tmp/project-other"
                  ltac:(intros s [<-|[<-|[]]]; reflexivity)));
    reflexivity.
Defined.

(** A missing working directory stops at the existence check. *)
Lemma execute_command_check_order_witness :
  execute_command Demo.work_server Demo.env0 (JStr "ls") (JStr "/work/nope") (JInt 30)
  = ([EExists ["/"; "work"; "nope"]], Ok (ExecErr (msg_not_found "/work/nope"))).
Proof.
  apply (proj1 (proj1 (execute_command_check_order Demo.work_server Demo.env0 (JStr "ls")
                         (JStr "/work/nope") (JInt 30))
                  "/work/nope" ["/"; "work"; "nope"] ltac:(reflexivity) ltac:(reflexivity))).
  reflexivity.
Defined.

(** [sleep 5] with [timeout: 1] is killed after the wait. *)
Lemma execute_command_timeout_kills_witness :
  execute_command Demo.work_server Demo.env0 (JStr "sleep 5") JNull (JInt 1)
  = ([EExists ["/"; "work"]; EIsDir ["/"; "work"]; EAuthorize (path_str ["/"; "work"]);
      ESpawn (JStr "sleep 5") ["/"; "work"]; EWait (JInt 1); EKill],
     Ok (ExecErr ("命令执行超时（" ++ py_str (JInt 1) ++ "秒）"))).
Proof.
  apply (execute_command_timeout_kills Demo.work_server Demo.env0 (JStr "sleep 5") JNull (JInt 1)
           "/work" ["/"; "work"] EmptyString "sleep 5" 5); reflexivity.
Defined.

(** A directory outside the allowed list yields a result, not an exception. *)
Lemma execute_command_total_witness :
  exists r, snd (execute_command Demo.work_server Demo.env0 (JStr "echo hi") (JStr "/etc") (JInt 30))
            = Ok r
     /\ (success r = false -> exists msg, r = ExecErr msg /\ descriptive_error msg).
Proof.
  exact (proj1 (execute_command_total Demo.work_server Demo.env0 (JStr "echo hi") (JStr "/etc")
                  (JInt 30) env0_raises_Exceptions)).
Defined.

(** [{"command": "sleep 5", "timeout": 1}]: the wait receives [1]. *)
Lemma tools_call_timeout_passthrough_witness :
  In (EWait (JInt 1)) (fst (handle_request Demo.work_server Demo.env0
                              (Demo.call 4 [("command", JStr "sleep 5"); ("timeout", JInt 1)])))
  /\ JInt 1 = get_default [("command", JStr "sleep 5"); ("timeout", JInt 1)] "timeout" (JInt 30).
Proof.
  split; [vm_compute; tauto|].
  apply (tools_call_timeout_passthrough Demo.work_server Demo.env0
           (Demo.call_kvs 4 [("command", JStr "sleep 5"); ("timeout", JInt 1)])
           (Demo.call_params [("command", JStr "sleep 5"); ("timeout", JInt 1)])
           [("command", JStr "sleep 5"); ("timeout", JInt 1)] (JInt 1));
    [reflexivity | reflexivity | reflexivity | reflexivity | vm_compute; tauto].
Defined.

(** A request without a command reaches the spawn step, which raises. *)
Lemma tools_call_command_unvalidated_witness :
  In (ESpawn JNull ["/"; "work"])
     (fst (handle_request Demo.work_server Demo.env0 (Demo.call 2 [])))
  /\ snd (execute_command Demo.work_server Demo.env0 JNull JNull (JInt 30))
     = Ok (ExecErr (msg_exec_error (ValueError "cmd must be a string"))).
Proof.
  destruct (tools_call_command_unvalidated Demo.work_server Demo.env0
              (Demo.call_kvs 2 []) (Demo.call_params []) [] "/work" ["/"; "work"] EmptyString
              ltac:(reflexivity) ltac:(reflexivity) ltac:(reflexivity) ltac:(reflexivity)
              ltac:(reflexivity) ltac:(reflexivity) ltac:(reflexivity) ltac:(reflexivity)
              ltac:(reflexivity)) as [H1 H2].
  split; [exact H1 | apply H2; intros s; discriminate].
Defined.

(** A [tools/call] request gets exactly one line. *)
Lemma run_line_one_line_per_request_witness :
  length (written (fst (run_line Demo.work_server Demo.env0
                          (Parsed (Demo.call 1 [("command", JStr "echo hi")]))))) = 1.
Proof.
  exact (run_line_one_line_per_request Demo.work_server Demo.env0
           (Demo.call 1 [("command", JStr "echo hi")]) env0_raises_Exceptions).
Defined.

(** The tool [rm_rf] and the method [resources/list]. *)
Lemma run_line_unknown_tool_and_method_witness :
  written (fst (run_line Demo.work_server Demo.env0
    (Parsed (Demo.obj [("jsonrpc", JStr "2.0"); ("id", JInt 7); ("method", JStr "tools/call");
                       ("params", Demo.obj [("name", JStr "rm_rf")])]))))
  = [JObj (("jsonrpc", JStr "2.0") :: app (id_field (JInt 7))
            [("result", JObj [
                ("content", text_content (dumps (JObj [("error",
                   JStr ("未知工具: " ++ py_str (JStr "rm_rf")))])));
                ("isError", JBool true)])])]
  /\ written (fst (run_line Demo.work_server Demo.env0
       (Parsed (Demo.obj [("jsonrpc", JStr "2.0"); ("id", JInt 8);
                          ("method", JStr "resources/list")]))))
     = [JObj (("jsonrpc", JStr "2.0") :: app (id_field (JInt 8))
               [("error", JObj [("code", JInt (-32601));
                                ("message", JStr ("未知方法: " ++ py_str (JStr "resources/list")))])])].
Proof.
  split.
  - apply (proj1 (run_line_unknown_tool_and_method Demo.work_server Demo.env0
             [("jsonrpc", JStr "2.0"); ("id", JInt 7); ("method", JStr "tools/call");
              ("params", Demo.obj [("name", JStr "rm_rf")])]) [("name", JStr "rm_rf")]);
      reflexivity.
  - apply (proj2 (run_line_unknown_tool_and_method Demo.work_server Demo.env0
             [("jsonrpc", JStr "2.0"); ("id", JInt 8); ("method", JStr "resources/list")])).
    intros k Hk. destruct Hk as [<-|[<-|[<-|[<-|[]]]]]; reflexivity.
Defined.

(** [{"id": 1, "method": "tools/call", "params": null}] is answered without
    its id. *)
Lemma run_line_internal_error_drops_id_witness :
  written (fst (run_line Demo.work_server Demo.env0
    (Parsed (Demo.obj [("jsonrpc", JStr "2.0"); ("id", JInt 1); ("method", JStr "tools/call");
                       ("params", JNull)]))))
  = [JObj [("jsonrpc", JStr "2.0");
           ("error", JObj [("code", JInt (-32603));
                           ("message", JStr ("Internal error: '" ++ py_type_name JNull
                                             ++ "' object has no attribute 'get'"))])]].
Proof.
  apply (run_line_internal_error_drops_id Demo.work_server Demo.env0
           [("jsonrpc", JStr "2.0"); ("id", JInt 1); ("method", JStr "tools/call");
            ("params", JNull)] JNull); [reflexivity | reflexivity | intros pk; discriminate].
Defined.

(** * The loop over many lines *)

Lemma bind_post_dep {A B} (P : A -> Prop) (Q : B -> Prop) (m : M A) (k : A -> M B) :
  post P m -> (forall a, P a -> post Q (k a)) -> post Q (bind m k).
Proof.
  unfold post, bind; intros Hm Hk b. destruct m as [t1 [a|ex]]; simpl.
  - specialize (Hm a eq_refl). destruct (k a) as [t2 r] eqn:E. simpl. intros ->.
    specialize (Hk a Hm b). rewrite E in Hk. auto.
  - discriminate.
Qed.

(** Split the goal on an innermost pending [match]. *)
Ltac split_inner :=
  match goal with
  | |- context [match ?x with _ => _ end] =>
      lazymatch x with
      | context [match _ with _ => _ end] => fail
      | _ => destruct x
      end
  end.

Lemma handle_request_initialize (srv : server) (e : env) (v : json) :
  is_initialize_request (Parsed v) = true ->
  handle_request srv e v
  = ([], Ok (mk_server true (default_dir srv) (allowed_dirs srv), Some initialize_result)).
Proof.
  destruct v as [| | | | |kvs]; try discriminate. simpl. intros H.
  unfold handle_request, py_get. cbv beta iota zeta delta [bind ret]. rewrite H. reflexivity.
Qed.

(** [handle_request] returns the server unchanged, except [initialize]. *)
Lemma handle_request_server (srv : server) (e : env) (v : json) :
  post (fun sr => fst sr = if is_initialize_request (Parsed v)
                           then mk_server true (default_dir srv) (allowed_dirs srv) else srv)
       (handle_request srv e v).
Proof.
  destruct (is_initialize_request (Parsed v)) eqn:Ei.
  { rewrite (handle_request_initialize srv e v Ei). intros a Ha. injection Ha as <-.
    reflexivity. }
  unfold post. destruct v as [| | | | |kvs];
    try (unfold handle_request, py_get; cbv beta iota zeta delta [bind ret raise];
         simpl; intros; discriminate).
  simpl in Ei. unfold handle_request, py_get. cbv beta iota zeta delta [bind ret raise].
  rewrite Ei. cbv iota.
  repeat (split_inner; cbv beta iota zeta); intros hr0 Ha; simpl in Ha;
    try discriminate; injection Ha as <-; reflexivity.
Qed.

Lemma run_line_server (srv : server) (e : env) (l : input_line) :
  post (fun s => s = if is_initialize_request l
                     then mk_server true (default_dir srv) (allowed_dirs srv) else srv)
       (run_line srv e l).
Proof.
  destruct l as [| |v]; try (intros a Ha; injection Ha as <-; reflexivity).
  destruct (is_initialize_request (Parsed v)) eqn:Ei.
  - destruct v as [| | | | |kvs]; try discriminate.
    unfold run_line, py_get. cbv beta iota zeta delta [bind ret try_except].
    rewrite (handle_request_initialize srv e (JObj kvs) Ei).
    case_truthy; intros a Ha; injection Ha as <-; reflexivity.
  - unfold run_line. apply try_except_post.
    + apply bind_post; intros _. apply bind_post; intros rid.
      apply (bind_post_dep _ _ _ _ (handle_request_server srv e v)). intros hr Hhr.
      apply bind_post; intros _. apply ret_post. rewrite Hhr, Ei. reflexivity.
    + intros ex. apply bind_post; intros _. apply ret_post. reflexivity.
Qed.

(** [run] keeps the configuration ([default_dir], [allowed_dirs]) of the
    server it starts with; the only state it changes is [initialized], set
    once an [initialize] request has been read. *)
Theorem run_server_state (srv : server) (e : env) (lines : list input_line) :
  post (fun s => s = mk_server (initialized srv || existsb is_initialize_request lines)
                               (default_dir srv) (allowed_dirs srv))
       (run srv e lines).
Proof.
  revert srv. induction lines as [|l rest IH]; intros [b d a]; cbn [run].
  - apply ret_post. simpl. rewrite orb_false_r. reflexivity.
  - apply (bind_post_dep _ _ _ _ (run_line_server (mk_server b d a) e l)). intros s Hs.
    subst s. intros s' Hs'. rewrite (IH _ s' Hs'). simpl.
    destruct (is_initialize_request l); simpl; rewrite ?orb_true_r; reflexivity.
Qed.

Lemma execute_command_flag (b b' : bool) (d : string) (a : list string) (e : env)
    (c wd timeout : json) :
  execute_command (mk_server b d a) e c wd timeout
  = execute_command (mk_server b' d a) e c wd timeout.
Proof. reflexivity. Qed.

Ltac flag_close :=
  case_truthy; cbn [exn_is_Exception AttributeError TypeError ValueError]; simpl;
    try match goal with |- context [exn_is_Exception ?x] => destruct (exn_is_Exception x) end;
    simpl; (split; [reflexivity | intros ?ex; split; intros Hx; first [discriminate Hx | exact Hx]]).

Lemma run_line_flag (b b' : bool) (d : string) (a : list string) (e : env) (l : input_line) :
  fst (run_line (mk_server b d a) e l) = fst (run_line (mk_server b' d a) e l)
  /\ (forall ex, snd (run_line (mk_server b d a) e l) = Raise ex
                 <-> snd (run_line (mk_server b' d a) e l) = Raise ex).
Proof.
  destruct l as [| |v]; [simpl; split; [reflexivity|split; discriminate]..|].
  unfold run_line, handle_request, py_get.
  destruct v as [| | | | |kvs]; cbv beta iota zeta delta [bind ret raise try_except];
    try flag_close.
  remember (get_default kvs "method" JNull) as m eqn:Em. clear Em.
  destruct (is_str m "initialize"); [flag_close|].
  destruct (is_str m "notifications/initialized"); [flag_close|].
  destruct (is_str m "tools/list"); [flag_close|].
  destruct (is_str m "tools/call"); [|flag_close].
  destruct (get_default kvs "params" (JObj [])) as [| | | | |pk]; try flag_close.
  destruct (get_default pk "arguments" (JObj [])) as [| | | | |ak];
    destruct (is_str (get_default pk "name" JNull) "execute_command"); try flag_close.
  rewrite (execute_command_flag b false), (execute_command_flag b' false).
  destruct (execute_command (mk_server false d a) e (get_default ak "command" JNull)
              (get_default ak "working_dir" JNull) (get_default ak "timeout" (JInt 30)))
    as [t [r|ex]]; flag_close.
Qed.

(** The [initialized] flag that [initialize] sets is never read: what the
    loop does and writes is the same whether or not an [initialize] request
    came first, and so is whether it stops on an exception. *)
Theorem run_ignores_initialized (b b' : bool) (d : string) (a : list string) (e : env)
    (lines : list input_line) :
  fst (run (mk_server b d a) e lines) = fst (run (mk_server b' d a) e lines)
  /\ (forall ex, snd (run (mk_server b d a) e lines) = Raise ex
                 <-> snd (run (mk_server b' d a) e lines) = Raise ex).
Proof.
  revert b b'. induction lines as [|l rest IH]; intros b b'; cbn [run].
  - split; [reflexivity|]. simpl. split; discriminate.
  - destruct (run_line_flag b b' d a e l) as [Ht Hr].
    pose proof (run_line_server (mk_server b d a) e l) as Hs.
    pose proof (run_line_server (mk_server b' d a) e l) as Hs'.
    unfold post in Hs, Hs'. unfold bind.
    destruct (run_line (mk_server b d a) e l) as [t1 [s1|x1]],
             (run_line (mk_server b' d a) e l) as [t2 [s2|x2]]; simpl in *; subst t2.
    + rewrite (Hs s1 eq_refl), (Hs' s2 eq_refl). simpl.
      destruct (is_initialize_request l).
      * destruct (run (mk_server true d a) e rest) as [u1 r1]. simpl. split; tauto.
      * pose proof (IH b b') as J. revert J.
        destruct (run (mk_server b d a) e rest) as [u1 r1],
                 (run (mk_server b' d a) e rest) as [u2 r2].
        simpl. intros [J1 J2]. subst u2. split; [reflexivity|exact J2].
    + pose proof (proj2 (Hr x2) eq_refl) as Hx. discriminate Hx.
    + pose proof (proj1 (Hr x1) eq_refl) as Hx. discriminate Hx.
    + split; [reflexivity|]. intros ex. simpl. apply Hr.
Qed.

Lemma run_line_written (srv : server) (e : env) (l : input_line)
    (H : env_raises_Exceptions e) :
  length (written (fst (run_line srv e l))) = (if answered l then 1 else 0)
  /\ exists s, snd (run_line srv e l) = Ok s.
Proof.
  destruct l as [| |v]; [(split; [reflexivity|eexists; reflexivity])..|].
  destruct v as [| | | | |kvs];
    try (unfold run_line, py_get; cbv beta iota zeta delta [bind ret raise try_except];
         case_truthy; (split; [reflexivity|eexists; reflexivity])).
  destruct (handle_request_dict srv e kvs H) as [Hw [Hr [Hp Hn]]].
  unfold answered, is_initialized_notification.
  unfold run_line, py_get. cbv beta iota zeta delta [bind ret raise try_except].
  destruct (is_str (get_default kvs "method" JNull) "notifications/initialized") eqn:En.
  { rewrite (Hn eq_refl). case_truthy; (split; [reflexivity|eexists; reflexivity]). }
  revert Hw Hr Hp. unfold raises_Exception, post.
  destruct (handle_request srv e (JObj kvs)) as [t [[s r]|ex]]; intros Hw Hr Hp;
    simpl in Hw, Hr, Hp.
  - destruct r as [r|]; [|destruct (Hp _ eq_refl) as [Hx _]; specialize (Hx eq_refl); congruence].
    case_truthy; simpl; rewrite written_app, Hw; (split; [reflexivity|eexists; reflexivity]).
  - case_truthy; cbv beta iota; rewrite (Hr ex eq_refl); simpl;
      rewrite written_app, Hw; (split; [reflexivity|eexists; reflexivity]).
Qed.

(** As long as the operating system raises only [Exception]s and every
    wait returns, the loop never stops before the end of its input, and it writes exactly one line
    per non-blank input line, except the [notifications/initialized]
    notification: a parse error, an internal error and every other response
    count one each. *)
Theorem run_one_line_per_answered (srv : server) (e : env) (lines : list input_line)
    (H : env_raises_Exceptions e) :
  length (written (fst (run srv e lines))) = length (filter answered lines)
  /\ exists s, snd (run srv e lines) = Ok s.
Proof.
  revert srv. induction lines as [|l rest IH]; intros srv; cbn [run].
  - split; [reflexivity|eexists; reflexivity].
  - destruct (run_line_written srv e l H) as [Hl [s Hs]]. unfold bind.
    destruct (run_line srv e l) as [t r]. simpl in Hs, Hl. subst r.
    destruct (IH s) as [IHl [s' IHs]].
    destruct (run s e rest) as [t2 r2]. simpl in IHl, IHs |- *. subst r2.
    rewrite written_app, length_app, Hl, IHl.
    split; [destruct (answered l); reflexivity|eexists; reflexivity].
Qed.

(** A line that parses to a JSON value other than an object (a list, a
    number, a string, [true], [null]) is answered with one -32603 internal
    error naming the value's type, without an id. *)
Theorem run_line_non_object (srv : server) (e : env) (v : json)
    (Hv : forall kvs, v <> JObj kvs) :
  written (fst (run_line srv e (Parsed v)))
  = [JObj [("jsonrpc", JStr "2.0");
           ("error", JObj [("code", JInt (-32603));
                           ("message", JStr ("Internal error: '" ++ py_type_name v
                                             ++ "' object has no attribute 'get'"))])]].
Proof.
  destruct v as [| | | | |kvs]; [..|exfalso; exact (Hv kvs eq_refl)];
    unfold run_line, py_get; cbv beta iota zeta delta [bind ret raise try_except];
    case_truthy; reflexivity.
Qed.

(** * The dispatcher and the working directory *)


(** [handle_request] touches the operating system (path checks, spawning,
    waiting, killing) only for a [tools/call] of [execute_command] with dict
    [params] and dict [arguments], and then only through [execute_command]
    on the request's arguments; every other request has no effect. *)
Theorem handle_request_effects (srv : server) (e : env) (v : json) (ev : event) :
  In ev (fst (handle_request srv e v)) ->
  exists kvs pk ak, v = JObj kvs
    /\ get_default kvs "method" JNull = JStr "tools/call"
    /\ get_default kvs "params" (JObj []) = JObj pk
    /\ get_default pk "name" JNull = JStr "execute_command"
    /\ get_default pk "arguments" (JObj []) = JObj ak
    /\ In ev (fst (execute_command srv e (get_default ak "command" JNull)
                     (get_default ak "working_dir" JNull) (get_default ak "timeout" (JInt 30)))).
Proof.
  destruct v as [| | | | |kvs];
    try (unfold handle_request, py_get; simpl; intros []).
  unfold handle_request, py_get. cbv beta iota zeta delta [bind ret raise].
  destruct (is_str (get_default kvs "method" JNull) "initialize"); [simpl; intros []|].
  destruct (is_str (get_default kvs "method" JNull) "notifications/initialized");
    [simpl; intros []|].
  destruct (is_str (get_default kvs "method" JNull) "tools/list"); [simpl; intros []|].
  destruct (is_str (get_default kvs "method" JNull) "tools/call") eqn:E4;
    [|simpl; intros []].
  apply is_str_JStr in E4.
  destruct (get_default kvs "params" (JObj [])) as [| | | | |pk] eqn:Ep;
    try (simpl; intros []).
  destruct (is_str (get_default pk "name" JNull) "execute_command") eqn:En;
    [|simpl; intros []].
  apply is_str_JStr in En.
  destruct (get_default pk "arguments" (JObj [])) as [| | | | |ak] eqn:Ea;
    try (simpl; intros []).
  intros Hin. exists kvs, pk, ak. do 5 (split; [auto|]).
  destruct (execute_command srv e (get_default ak "command" JNull)
              (get_default ak "working_dir" JNull) (get_default ak "timeout" (JInt 30)))
    as [t [r|ex]]; simpl in Hin |- *; rewrite ?app_nil_r in Hin; exact Hin.
Qed.

(** A [success=true] result reports what happened: its [command] is the
    command given, its [working_dir] is [str] of the resolved directory the
    shell ran in, which exists, is a directory and passed the allow-list,
    and its [stdout], [stderr] and [returncode] are those of that process,
    decoded. *)
Theorem execute_command_success_result (srv : server) (e : env) (c wd timeout : json)
    (out err : string) (rc : Z) (wdir : string) (cmd : json)
    (H : snd (execute_command srv e c wd timeout) = Ok (ExecOk out err rc wdir cmd)) :
  cmd = c
  /\ exists t p m s pid bout berr,
       target_dir srv wd = JStr t /\ resolve e t = Ok p
       /\ exists_ e p = Ok true /\ is_dir e p = Ok true
       /\ is_directory_allowed srv e (path_str p) = ([], Ok (true, m))
       /\ wdir = path_str p /\ c = JStr s /\ spawn_shell e s p = Ok pid
       /\ communicate_for e pid timeout = Ok (Finished bout berr rc)
       /\ out = decode_replace e bout /\ err = decode_replace e berr.
Proof.
  revert H. unfold execute_command. exec_cases; intros Hr; try discriminate Hr.
  injection Hr as <- <- <- <- <-.
  match goal with
  | E : is_directory_allowed ?s ?e ?d = (?l, _) |- _ =>
      pose proof (is_directory_allowed_silent s e d) as Hs; rewrite E in Hs;
      simpl in Hs; subst l
  end.
  split; [reflexivity|]. do 7 eexists. repeat split; eassumption.
Qed.

(** [working_dir or self.default_dir]: every falsy [working_dir] ([None],
    [""], [0], [false], [[]], [{}]) behaves as an absent one. A truthy value
    that is not a string makes [Path()] raise a [TypeError] naming its
    type, which is reported as [success=false] before the operating system
    is touched. *)
Theorem execute_command_working_dir_value (srv : server) (e : env) (c wd timeout : json) :
  (truthy wd = false ->
   execute_command srv e c wd timeout = execute_command srv e c JNull timeout)
  /\ (truthy wd = true -> (forall s, wd <> JStr s) ->
      execute_command srv e c wd timeout
      = ([], Ok (ExecErr (msg_exec_error
               (TypeError ("expected str, bytes or os.PathLike object, not " ++ py_type_name wd)))))).
Proof.
  split.
  - intros Hf. unfold execute_command, target_dir. rewrite Hf. reflexivity.
  - intros Ht Hs. unfold execute_command, target_dir. rewrite Ht.
    destruct wd as [| | |s| |]; try (exfalso; exact (Hs s eq_refl)); reflexivity.
Qed.


(** Without [--allowed] ([allowed_dirs] [None] or empty) every existing
    directory is authorised: the shell is spawned in any working directory
    that resolves to an existing directory, [/etc] or [/] included. *)
Theorem execute_command_allow_all (d : string) (allowed : option (list string)) (e : env)
    (c wd timeout : json) (t : string) (p : path)
    (Hal : allowed = None \/ allowed = Some [])
    (Ht : target_dir (MCPServer_init d allowed) wd = JStr t)
    (Hr : resolve e t = Ok p) (He : exists_ e p = Ok true) (Hd : is_dir e p = Ok true) :
  exists rest r, execute_command (MCPServer_init d allowed) e c wd timeout
                 = (EExists p :: EIsDir p :: EAuthorize (path_str p) :: ESpawn c p :: rest, r).
Proof.
  apply (execute_command_spawns _ e c wd timeout t p EmptyString Ht Hr He Hd).
  destruct Hal as [-> | ->]; reflexivity.
Qed.

(** A process is killed only when its wait timed out, and then the result
    is the timeout error: a command that finishes, or whose wait raises, is
    never killed. *)
Theorem execute_command_kill_inv (srv : server) (e : env) (c wd timeout : json) :
  In EKill (fst (execute_command srv e c wd timeout)) ->
  exists s p pid, c = JStr s /\ In (ESpawn c p) (fst (execute_command srv e c wd timeout))
    /\ spawn_shell e s p = Ok pid /\ communicate_for e pid timeout = Ok TimedOut
    /\ snd (execute_command srv e c wd timeout) = Ok (ExecErr (msg_timeout timeout)).
Proof.
  unfold execute_command. exec_cases;
    try match goal with
    | E : is_directory_allowed ?s ?e ?d = (?l, _) |- _ =>
        pose proof (is_directory_allowed_silent s e d) as Hs; rewrite E in Hs;
        simpl in Hs; subst l
    end;
    intros H; simpl in H;
    repeat match goal with
    | H : _ \/ _ |- _ => destruct H as [H|H]
    | H : False |- _ => contradiction
    | H : _ = _ |- _ => discriminate H
    end.
  do 3 eexists. split; [reflexivity|]. split; [simpl; auto 6|].
  split; [eassumption|]. split; [eassumption|reflexivity].
Qed.

(** * Witnesses of the properties of the loop and of the tool *)

(** An [initialize] request, a blank line and a [tools/call]: the server
    ends up initialised. *)
Lemma run_server_state_witness :
  exists s, snd (run Demo.work_server Demo.env0
                   [Parsed (Demo.obj [("id", JInt 0); ("method", JStr "initialize")]); Blank;
                    Parsed (Demo.call 1 [("command", JStr "echo hi")])]) = Ok s
    /\ s = mk_server true "/work" ["/work"].
Proof.
  eexists. split; [vm_compute; reflexivity|].
  exact (run_server_state Demo.work_server Demo.env0
           [Parsed (Demo.obj [("id", JInt 0); ("method", JStr "initialize")]); Blank;
            Parsed (Demo.call 1 [("command", JStr "echo hi")])] _ eq_refl).
Defined.

(** A [tools/call] before any [initialize] is served as after it. *)
Lemma run_ignores_initialized_witness :
  fst (run (mk_server false "/work" ["/work"]) Demo.env0
         [Parsed (Demo.call 1 [("command", JStr "echo hi")])])
  = fst (run (mk_server true "/work" ["/work"]) Demo.env0
           [Parsed (Demo.call 1 [("command", JStr "echo hi")])]).
Proof.
  exact (proj1 (run_ignores_initialized false true "/work" ["/work"] Demo.env0
                  [Parsed (Demo.call 1 [("command", JStr "echo hi")])])).
Defined.

(** Unparsable, blank, [tools/call], [notifications/initialized] and a
    JSON array: three lines are written. *)
Lemma run_one_line_per_answered_witness :
  length (written (fst (run Demo.work_server Demo.env0
    [Unparsable; Blank; Parsed (Demo.call 1 [("command", JStr "echo hi")]);
     Parsed (Demo.obj [("method", JStr "notifications/initialized")]);
     Parsed (JArr [])]))) = 3.
Proof.
  exact (proj1 (run_one_line_per_answered Demo.work_server Demo.env0
    [Unparsable; Blank; Parsed (Demo.call 1 [("command", JStr "echo hi")]);
     Parsed (Demo.obj [("method", JStr "notifications/initialized")]);
     Parsed (JArr [])] env0_raises_Exceptions)).
Defined.

(** The line [[]]. *)
Lemma run_line_non_object_witness :
  written (fst (run_line Demo.work_server Demo.env0 (Parsed (JArr []))))
  = [JObj [("jsonrpc", JStr "2.0");
           ("error", JObj [("code", JInt (-32603));
                           ("message", JStr ("Internal error: '" ++ py_type_name (JArr [])
                                             ++ "' object has no attribute 'get'"))])]].
Proof.
  apply (run_line_non_object Demo.work_server Demo.env0 (JArr [])).
  intros kvs; discriminate.
Defined.


(** The spawn of [echo hi] comes from [execute_command]. *)
Lemma handle_request_effects_witness :
  exists kvs pk ak, Demo.call 1 [("command", JStr "echo hi")] = JObj kvs
    /\ get_default kvs "method" JNull = JStr "tools/call"
    /\ get_default kvs "params" (JObj []) = JObj pk
    /\ get_default pk "name" JNull = JStr "execute_command"
    /\ get_default pk "arguments" (JObj []) = JObj ak
    /\ In (ESpawn (JStr "echo hi") ["/"; "work"])
          (fst (execute_command Demo.work_server Demo.env0 (get_default ak "command" JNull)
                  (get_default ak "working_dir" JNull) (get_default ak "timeout" (JInt 30)))).
Proof.
  apply (handle_request_effects Demo.work_server Demo.env0
           (Demo.call 1 [("command", JStr "echo hi")]) (ESpawn (JStr "echo hi") ["/"; "work"])).
  vm_compute. tauto.
Defined.

(** [echo hi] in [/work]. *)
Lemma execute_command_success_result_witness :
  JStr "echo hi" = JStr "echo hi"
  /\ exists t p m s pid bout berr,
       target_dir Demo.work_server JNull = JStr t /\ resolve Demo.env0 t = Ok p
       /\ exists_ Demo.env0 p = Ok true /\ is_dir Demo.env0 p = Ok true
       /\ is_directory_allowed Demo.work_server Demo.env0 (path_str p) = ([], Ok (true, m))
       /\ "/work" = path_str p /\ JStr "echo hi" = JStr s
       /\ spawn_shell Demo.env0 s p = Ok pid
       /\ communicate_for Demo.env0 pid (JInt 30) = Ok (Finished bout berr 0)
       /\ ("hi" ++ String (Ascii.ascii_of_nat 10) EmptyString)%string = decode_replace Demo.env0 bout
       /\ EmptyString = decode_replace Demo.env0 berr.
Proof.
  exact (execute_command_success_result Demo.work_server Demo.env0 (JStr "echo hi") JNull (JInt 30)
           ("hi" ++ String (Ascii.ascii_of_nat 10) EmptyString) EmptyString 0 "/work"
           (JStr "echo hi") eq_refl).
Defined.

(** [0] as [working_dir] is the default directory; [5] is a [TypeError]. *)
Lemma execute_command_working_dir_value_witness :
  execute_command Demo.work_server Demo.env0 (JStr "ls") (JInt 0) (JInt 30)
  = execute_command Demo.work_server Demo.env0 (JStr "ls") JNull (JInt 30)
  /\ execute_command Demo.work_server Demo.env0 (JStr "ls") (JInt 5) (JInt 30)
     = ([], Ok (ExecErr (msg_exec_error
                (TypeError ("expected str, bytes or os.PathLike object, not " ++ py_type_name (JInt 5)))))).
Proof.
  split.
  - exact (proj1 (execute_command_working_dir_value Demo.work_server Demo.env0 (JStr "ls")
                    (JInt 0) (JInt 30)) eq_refl).
  - exact (proj2 (execute_command_working_dir_value Demo.work_server Demo.env0 (JStr "ls")
                    (JInt 5) (JInt 30)) eq_refl (fun s H => ltac:(discriminate H))).
Defined.


(** Started without [--allowed], the server spawns in [/etc]. *)
Lemma execute_command_allow_all_witness :
  exists rest r, execute_command (MCPServer_init "/work" None) Demo.env0 (JStr "ls")
                   (JStr "/etc") (JInt 30)
                 = (EExists ["/"; "etc"] :: EIsDir ["/"; "etc"] :: EAuthorize (path_str ["/"; "etc"])
                    :: ESpawn (JStr "ls") ["/"; "etc"] :: rest, r).
Proof.
  exact (execute_command_allow_all "/work" None Demo.env0 (JStr "ls") (JStr "/etc") (JInt 30)
           "/etc" ["/"; "etc"] (or_introl eq_refl) eq_refl eq_refl eq_refl eq_refl).
Defined.

(** [sleep 5] with [timeout: 1] is killed after a timed-out wait. *)
Lemma execute_command_kill_inv_witness :
  exists s p pid, JStr "sleep 5" = JStr s
    /\ In (ESpawn (JStr "sleep 5") p)
          (fst (execute_command Demo.work_server Demo.env0 (JStr "sleep 5") JNull (JInt 1)))
    /\ spawn_shell Demo.env0 s p = Ok pid /\ communicate_for Demo.env0 pid (JInt 1) = Ok TimedOut
    /\ snd (execute_command Demo.work_server Demo.env0 (JStr "sleep 5") JNull (JInt 1))
       = Ok (ExecErr (msg_timeout (JInt 1))).
Proof.
  apply (execute_command_kill_inv Demo.work_server Demo.env0 (JStr "sleep 5") JNull (JInt 1)).
  vm_compute. tauto.
Defined.
